(** * Source / Destination binding of cdk-docker-image-deployment

    A shallow embedding of [src/source.ts] and [src/destination.ts].

    - JavaScript strings are sequences of code units; the embedding keeps
      the code units below 256 and uses [string].
    - A value that may be [undefined] is an [option].
    - [throw new Error(msg)] is the left injection of a sum; code that holds
      permission grants threads a [World] explicitly.
    - The regular expression literal of [validateTag] is kept as a syntax
      tree and run by a derivative matcher.
    - The binds are embedded twice: first on resolved values (strings
      without tokens, scopes inside a stack), then, in [Synth], at synthesis
      time, with the tokens of the library and the failure of [Stack.of]. *)

From Stdlib Require Import String Ascii List Bool Arith Lia DecimalString.
Import ListNotations.
Open Scope string_scope.

(** ** Strings *)

Module Str.

(** [String.prototype.split] with a one-character separator: the pieces
    between the separators, in order; a string without the separator is
    returned whole, as the only piece. *)
Fixpoint split (sep : ascii) (s : string) : list string :=
  match s with
  | EmptyString => [EmptyString]
  | String c s' =>
      if Ascii.eqb c sep then EmptyString :: split sep s'
      else match split sep s' with
           | [] => [String c EmptyString]
           | piece :: pieces => String c piece :: pieces
           end
  end.

(** Does character [c] occur in [s]? *)
Fixpoint mem (c : ascii) (s : string) : bool :=
  match s with
  | EmptyString => false
  | String x s' => Ascii.eqb x c || mem c s'
  end.

(** Every character of [s] satisfies [p]. *)
Fixpoint all (p : ascii -> bool) (s : string) : bool :=
  match s with
  | EmptyString => true
  | String x s' => p x && all p s'
  end.

(** The part of [s] after its last occurrence of [sep], if there is
    one.  This is the extraction rule as the specification words it; it is
    compared below with what the code computes. *)
Fixpoint afterLast (sep : ascii) (s : string) : option string :=
  match s with
  | EmptyString => None
  | String c s' =>
      match afterLast sep s' with
      | Some t => Some t
      | None => if Ascii.eqb c sep then Some s' else None
      end
  end.

(** Template literals print a number in decimal. *)
Definition ofNat (n : nat) : string := NilZero.string_of_uint (Nat.to_uint n).

(** How many times [c] occurs in [s]. *)
Fixpoint count (c : ascii) (s : string) : nat :=
  match s with
  | EmptyString => 0
  | String x s' => (if Ascii.eqb x c then 1 else 0) + count c s'
  end.

End Str.

(** ** Regular expressions *)

Module RegExp.

(** An atom of a character class: one character or a range. *)
Inductive ClassAtom : Type :=
| Single (c : ascii)
| Range (lo hi : ascii).

Inductive t : Type :=
| Fail                                           (* matches nothing *)
| Empty                                          (* the empty string *)
| Class (negated : bool) (atoms : list ClassAtom) (* [...] and [^...] *)
| Seq (r1 r2 : t)
| Alt (r1 r2 : t)
| Star (r : t).

(** [r+] *)
Definition Plus (r : t) : t := Seq r (Star r).

Definition atomHas (c : ascii) (a : ClassAtom) : bool :=
  match a with
  | Single x => Ascii.eqb c x
  | Range lo hi =>
      Nat.leb (nat_of_ascii lo) (nat_of_ascii c)
      && Nat.leb (nat_of_ascii c) (nat_of_ascii hi)
  end.

Definition classHas (negated : bool) (atoms : list ClassAtom) (c : ascii) : bool :=
  xorb negated (existsb (atomHas c) atoms).

Fixpoint nullable (r : t) : bool :=
  match r with
  | Fail => false
  | Empty => true
  | Class _ _ => false
  | Seq r1 r2 => nullable r1 && nullable r2
  | Alt r1 r2 => nullable r1 || nullable r2
  | Star _ => true
  end.

(** What is left of [r] once [c] has been read. *)
Fixpoint deriv (c : ascii) (r : t) : t :=
  match r with
  | Fail => Fail
  | Empty => Fail
  | Class negated atoms => if classHas negated atoms c then Empty else Fail
  | Seq r1 r2 =>
      if nullable r1 then Alt (Seq (deriv c r1) r2) (deriv c r2)
      else Seq (deriv c r1) r2
  | Alt r1 r2 => Alt (deriv c r1) (deriv c r2)
  | Star r1 => Seq (deriv c r1) (Star r1)
  end.

(** [/^r$/.test(s)]: with both anchors and no flags the whole of [s] has
    to match [r]. *)
Fixpoint test (r : t) (s : string) : bool :=
  match s with
  | EmptyString => nullable r
  | String c s' => test (deriv c r) s'
  end.

(** The strings a regular expression denotes. *)
Inductive Matches : t -> string -> Prop :=
| MEmpty : Matches Empty ""
| MClass negated atoms c :
    classHas negated atoms c = true ->
    Matches (Class negated atoms) (String c "")
| MSeq r1 r2 s1 s2 :
    Matches r1 s1 -> Matches r2 s2 -> Matches (Seq r1 r2) (s1 ++ s2)
| MAltL r1 r2 s : Matches r1 s -> Matches (Alt r1 r2) s
| MAltR r1 r2 s : Matches r2 s -> Matches (Alt r1 r2) s
| MStarNil r : Matches (Star r) ""
| MStarApp r s1 s2 :
    Matches r s1 -> Matches (Star r) s2 -> Matches (Star r) (s1 ++ s2).

End RegExp.

(** ** destination.ts: the tag validator *)

(** [new Error(message)] *)
Inductive exn : Type :=
| Error (message : string).

Definition Result (A : Type) : Type := (exn + A)%type.

(** The two character classes of the pattern of [validateTag]: [[^-.]]
    (negated where it is used) and [[a-zA-Z0-9-_.]], in which the ['-'] that
    follows the range [0-9] is a literal character. *)
Definition firstClass : list RegExp.ClassAtom :=
  [RegExp.Single "-"; RegExp.Single "."].

Definition restClass : list RegExp.ClassAtom :=
  [RegExp.Range "a" "z"; RegExp.Range "A" "Z"; RegExp.Range "0" "9";
   RegExp.Single "-"; RegExp.Single "_"; RegExp.Single "."].

(** [/^[^-.][a-zA-Z0-9-_.]+$/] without its anchors. *)
Definition tagPattern : RegExp.t :=
  RegExp.Seq (RegExp.Class true firstClass)
    (RegExp.Plus (RegExp.Class false restClass)).

Definition tooLongMessage (tag : string) : string :=
  "Invalid tag: tags may contain a maximum of 128 characters; your tag "
    ++ tag ++ " has " ++ Str.ofNat (String.length tag) ++ " characters".

Definition invalidCharactersMessage (tag : string) : string :=
  "Invalid tag: tags must contain alphanumeric characters and '-' '_' '.' only and must not begin with '.' or '-'; your tag was "
    ++ tag.

(** [Destination.validateTag] *)
Definition validateTag (tag : string) : Result unit :=
  if Nat.ltb 128 (String.length tag) then inl (Error (tooLongMessage tag))
  else if negb (RegExp.test tagPattern tag) then
         inl (Error (invalidCharactersMessage tag))
  else inr tt.

(** The validation rule as the specification words it (4.3): at least one
    and at most 128 characters, not starting with ['-'] or ['.'], every
    character in [[A-Za-z0-9_.-]]. *)
Definition isTagChar (c : ascii) : bool :=
  let n := nat_of_ascii c in
  (Nat.leb 65 n && Nat.leb n 90) || (Nat.leb 97 n && Nat.leb n 122)
  || (Nat.leb 48 n && Nat.leb n 57)
  || Ascii.eqb c "_" || Ascii.eqb c "." || Ascii.eqb c "-".

Definition specValidTag (t : string) : bool :=
  Nat.leb 1 (String.length t) && Nat.leb (String.length t) 128
  && match t with
     | EmptyString => false
     | String c _ => negb (Ascii.eqb c "-") && negb (Ascii.eqb c ".")
     end
  && Str.all isTagChar t.

(** ** The collaborators of aws-cdk-lib that the two files call *)

(** [ResourceEnvironment] *)
Module Env.
Record t : Type := { account : string; region : string }.
End Env.

(** [iam.IGrantable]; an [iam.IRole] is passed where one is expected. *)
Module IGrantable.
Record t : Type := { grantPrincipal : string }.
End IGrantable.

(** A permission statement held by the identity system. *)
Module Grant.
Inductive Actions : Type := Pull | PullPush.
Record t : Type :=
  { actions : Actions; resource : string; grantee : IGrantable.t }.
End Grant.

(** What the calls of [bind] act on: the grants issued so far. *)
Record World : Type := { grants : list Grant.t }.

(** The world once [g] has been issued. *)
Definition addGrant (g : Grant.t) (w : World) : World :=
  {| grants := (grants w ++ [g])%list |}.

(** A computation that may throw and may issue grants. *)
Definition M (A : Type) : Type := World -> Result A * World.

Definition ret {A : Type} (a : A) : M A := fun w => (inr a, w).

Definition liftResult {A : Type} (r : Result A) : M A := fun w => (r, w).

Definition andThen {A B : Type} (m : M A) (k : A -> M B) : M B :=
  fun w =>
    match m w with
    | (inl e, w') => (inl e, w')
    | (inr a, w') => k a w'
    end.

Notation "x <- m ;; k" := (andThen m (fun x => k))
  (at level 61, m at next level, right associativity).
Notation "m ;;; k" := (andThen m (fun _ => k))
  (at level 61, right associativity).

(** [ecr.IRepository] *)
Module Repository.
Record t : Type :=
  { repositoryArn : string; repositoryUri : string; env : Env.t }.

(** The URI of the repository with [":" + tag] appended; nothing is
    appended for a missing or empty tag. *)
Definition repositoryUriForTag (self : t) (tag : option string) : string :=
  match tag with
  | None | Some EmptyString => repositoryUri self
  | Some tg => repositoryUri self ++ ":" ++ tg
  end.

Definition grant (actions : Grant.Actions) (self : t) (grantee : IGrantable.t)
  : M unit :=
  fun w =>
    (inr tt,
     addGrant {| Grant.actions := actions;
                 Grant.resource := repositoryArn self;
                 Grant.grantee := grantee |} w).

Definition grantPull : t -> IGrantable.t -> M unit := grant Grant.Pull.
Definition grantPullPush : t -> IGrantable.t -> M unit := grant Grant.PullPush.
End Repository.

Module Stack.
Record t : Type := { account : string; region : string }.
End Stack.

(** [Construct]: a node of the construct tree and the stack it is in. *)
Module Construct.
Record t : Type := { path : string; stack : Stack.t }.
End Construct.

(** [Stack.of(scope)] for a scope inside a stack; [Synth.Stack_of] has the
    scope that is in none. *)
Definition Stack_of (scope : Construct.t) : Stack.t := Construct.stack scope.

(** [ecr_assets.DockerImageAsset] and its props *)
Module DockerImageAsset.
Record Props : Type := { directory : string }.
Record t : Type := { repository : Repository.t; imageUri : string }.
End DockerImageAsset.

(** [Fn.split] and [Fn.select] on strings and lists that hold no token, and
    so by the values tokens stand for: the pieces of the source string, and
    the piece at an index; there is none past the end.  What they return
    for tokens is in [Synth.Fn]. *)
Module Fn.
Definition split (delimiter : ascii) (source : string) : list string :=
  Str.split delimiter source.
Definition select (index : nat) (array : list string) : option string :=
  nth_error array index.
End Fn.

(** ** source.ts *)

Inductive LoginType : Type := ECR | EXTERNALECR.

Module LoginConfig.
Record t : Type :=
  { loginCommand : string; loginType : LoginType; region : option string }.
End LoginConfig.

Module SourceConfig.
(** [imageTag] is declared a string; [Fn.select] past the end leaves it
    undefined. *)
Record t : Type :=
  { imageUri : string; imageTag : option string; loginConfig : LoginConfig.t }.
End SourceConfig.

Module SourceContext.
Record t : Type := { handlerRole : IGrantable.t }.
End SourceContext.

(** The Registry Login Builder as the specification words it (4.4). *)
Definition buildLogin (accountId region : string) : LoginConfig.t :=
  {| LoginConfig.loginCommand :=
      "aws ecr get-login-password --region " ++ region
        ++ " | docker login --username AWS --password-stdin "
        ++ accountId ++ ".dkr.ecr." ++ region ++ ".amazonaws.com";
     LoginConfig.loginType := ECR;
     LoginConfig.region := Some region |}.

Module Source.

(** The three classes that extend [Source], with their private fields. *)
Inductive t : Type :=
| DirectorySource (path : string)
| EcrSource (repository : Repository.t) (tag : string)
| AssetSource (repository : Repository.t) (tag : option string).

Definition directory (path : string) : t := DirectorySource path.

Definition ecr (repository : Repository.t) (tag : string) : t :=
  EcrSource repository tag.

Definition asset (asset : DockerImageAsset.t) : t :=
  AssetSource (DockerImageAsset.repository asset)
    (Fn.select 1 (Fn.split ":" (DockerImageAsset.imageUri asset))).

Section Bind.

(** [new ecr_assets.DockerImageAsset(scope, id, props)]: the packaging
    service of the surrounding application. *)
Variable newDockerImageAsset :
  Construct.t -> string -> DockerImageAsset.Props -> M DockerImageAsset.t.

Definition bind (self : t) (scope : Construct.t) (context : SourceContext.t)
  : M SourceConfig.t :=
  match self with
  | DirectorySource path =>
      let accountId := Stack.account (Stack_of scope) in
      let region := Stack.region (Stack_of scope) in
      asset <- newDockerImageAsset scope "asset"
                 {| DockerImageAsset.directory := path |} ;;
      Repository.grantPull (DockerImageAsset.repository asset)
        (SourceContext.handlerRole context) ;;;
      ret {| SourceConfig.imageUri := DockerImageAsset.imageUri asset;
             SourceConfig.imageTag :=
               Fn.select 1 (Fn.split ":" (DockerImageAsset.imageUri asset));
             SourceConfig.loginConfig :=
               {| LoginConfig.loginCommand :=
                   "aws ecr get-login-password --region " ++ region
                     ++ " | docker login --username AWS --password-stdin "
                     ++ accountId ++ ".dkr.ecr." ++ region ++ ".amazonaws.com";
                  LoginConfig.loginType := ECR;
                  LoginConfig.region := Some region |} |}
  | EcrSource repository tag =>
      let accountId := Env.account (Repository.env repository) in
      let region := Env.region (Repository.env repository) in
      Repository.grantPull repository (SourceContext.handlerRole context) ;;;
      ret {| SourceConfig.imageUri :=
               Repository.repositoryUriForTag repository (Some tag);
             SourceConfig.imageTag := Some tag;
             SourceConfig.loginConfig :=
               {| LoginConfig.loginCommand :=
                   "aws ecr get-login-password --region " ++ region
                     ++ " | docker login --username AWS --password-stdin "
                     ++ accountId ++ ".dkr.ecr." ++ region ++ ".amazonaws.com";
                  LoginConfig.loginType := ECR;
                  LoginConfig.region := Some region |} |}
  | AssetSource repository tag =>
      let accountId := Stack.account (Stack_of scope) in
      let region := Stack.region (Stack_of scope) in
      Repository.grantPull repository (SourceContext.handlerRole context) ;;;
      ret {| SourceConfig.imageUri :=
               Repository.repositoryUriForTag repository tag;
             SourceConfig.imageTag := tag;
             SourceConfig.loginConfig :=
               {| LoginConfig.loginCommand :=
                   "aws ecr get-login-password --region " ++ region
                     ++ " | docker login --username AWS --password-stdin "
                     ++ accountId ++ ".dkr.ecr." ++ region ++ ".amazonaws.com";
                  LoginConfig.loginType := ECR;
                  LoginConfig.region := Some region |} |}
  end.

End Bind.

(** The account and region a variant resolves at bind time. *)
Definition account (self : t) (scope : Construct.t) : string :=
  match self with
  | EcrSource repository _ => Env.account (Repository.env repository)
  | _ => Stack.account (Stack_of scope)
  end.

Definition region (self : t) (scope : Construct.t) : string :=
  match self with
  | EcrSource repository _ => Env.region (Repository.env repository)
  | _ => Stack.region (Stack_of scope)
  end.

End Source.

(** ** destination.ts *)

Module DestinationConfig.
Record t : Type :=
  { destinationUri : string;
    loginConfig : LoginConfig.t;
    destinationTag : option string }.
End DestinationConfig.

Module EcrSourceOptions.
Record t : Type := { tag : option string }.
End EcrSourceOptions.

(** [options?.tag] *)
Definition optionsTag (options : option EcrSourceOptions.t) : option string :=
  match options with
  | Some o => EcrSourceOptions.tag o
  | None => None
  end.

Module Destination.

(** The one class that extends [Destination], with its private fields. *)
Inductive t : Type :=
| EcrDestination (repository : Repository.t) (options : option EcrSourceOptions.t).

(** [Destination.ecr], that is the constructor of [EcrDestination]:
    [this.options] is assigned only after the tag has passed. *)
Definition ecr (repository : Repository.t) (options : option EcrSourceOptions.t)
  : M t :=
  match optionsTag options with
  | Some tag =>
      liftResult (validateTag tag) ;;;
      ret (EcrDestination repository options)
  | None => ret (EcrDestination repository None)
  end.

Definition bind (self : t) (role : IGrantable.t) : M DestinationConfig.t :=
  match self with
  | EcrDestination repository options =>
      let accountId := Env.account (Repository.env repository) in
      let region := Env.region (Repository.env repository) in
      Repository.grantPullPush repository role ;;;
      ret {| DestinationConfig.destinationUri := Repository.repositoryUri repository;
             DestinationConfig.loginConfig :=
               {| LoginConfig.loginCommand :=
                   "aws ecr get-login-password --region " ++ region
                     ++ " | docker login --username AWS --password-stdin "
                     ++ accountId ++ ".dkr.ecr." ++ region ++ ".amazonaws.com";
                  LoginConfig.loginType := ECR;
                  LoginConfig.region := Some region |};
             DestinationConfig.destinationTag := optionsTag options |}
  end.

(** The account and region the variant resolves at bind time. *)
Definition account (self : t) : string :=
  match self with
  | EcrDestination repository _ => Env.account (Repository.env repository)
  end.

Definition region (self : t) : string :=
  match self with
  | EcrDestination repository _ => Env.region (Repository.env repository)
  end.

End Destination.

(** ** The same code at synthesis time

    During synthesis a string may hold a token: a marker that stands for a
    value known at deployment only.  The image URI of a [DockerImageAsset] is
    such a string in an ordinary stack.  [Fn.split] and [Fn.select] then
    return tokens instead of pieces, and [Stack.of] throws for a scope that
    is in no stack.  This second embedding keeps both; the definitions above
    are its case of strings without tokens and scopes inside a stack. *)

Module Synth.

(** A call of an intrinsic function left for deployment:
    [{ 'Fn::Split': [delimiter, source] }] and
    [{ 'Fn::Select': [index, array] }]. *)
Inductive Intrinsic : Type :=
| FnSplit (delimiter : ascii) (source : string)
| FnSelect (index : nat) (array : list string).

(** The token map of the library: every token gets the next number, and
    its key is registered with what it stands for. *)
Module TokenMap.
Record t : Type :=
  { tokenCounter : nat; stringTokenMap : list (string * Intrinsic) }.

Definition registerStringKey (token : Intrinsic) (self : t) : string * t :=
  let key := "TOKEN." ++ Str.ofNat (tokenCounter self) in
  (key,
   {| tokenCounter := S (tokenCounter self);
      stringTokenMap := (key, token) :: stringTokenMap self |}).

(** The string that stands for [token]. *)
Definition registerString (token : Intrinsic) (self : t) : string * t :=
  let (key, self') := registerStringKey token self in
  ("${Token[" ++ key ++ "]}", self').

(** The list that stands for [token]: one element, a list marker. *)
Definition registerList (token : Intrinsic) (self : t) : list string * t :=
  let (key, self') := registerStringKey token self in
  (["#{Token[" ++ key ++ "]}"], self').

End TokenMap.

(** Recognising tokens: [Token.isUnresolved]. *)
Module Token.

(** The characters of a key: [[a-zA-Z0-9:._-]]. *)
Definition keyClass : list RegExp.ClassAtom :=
  [RegExp.Range "a" "z"; RegExp.Range "A" "Z"; RegExp.Range "0" "9";
   RegExp.Single ":"; RegExp.Single "."; RegExp.Single "_"; RegExp.Single "-"].

(** The characters of [s], one after the other. *)
Fixpoint lit (s : string) : RegExp.t :=
  match s with
  | EmptyString => RegExp.Empty
  | String c s' => RegExp.Seq (RegExp.Class false [RegExp.Single c]) (lit s')
  end.

Definition anyChar : RegExp.t := RegExp.Class true [].

(** [begin], a key, and the closing ["]}"]. *)
Definition marker (begin : string) : RegExp.t :=
  RegExp.Seq (lit begin)
    (RegExp.Seq (RegExp.Plus (RegExp.Class false keyClass)) (lit "]}")).

(** [r.test(s)] without anchors: [r] matches somewhere in [s]. *)
Definition search (r : RegExp.t) (s : string) : bool :=
  RegExp.test
    (RegExp.Seq (RegExp.Star anyChar) (RegExp.Seq r (RegExp.Star anyChar))) s.

(** On a string: it holds a string marker. *)
Definition isUnresolved (s : string) : bool := search (marker "${Token[") s.

(** On an array: it has one element, which holds a list marker. *)
Definition isUnresolvedList (array : list string) : bool :=
  match array with
  | [x] => search (marker "#{Token[") x
  | _ => false
  end.

(** A string that holds no marker of either kind. *)
Definition plain (s : string) : bool :=
  negb (isUnresolved s) && negb (search (marker "#{Token[") s).

End Token.

(** Grants and tokens together. *)
Record State : Type := { world : World; tokens : TokenMap.t }.

(** A computation that may throw, issue grants and register tokens. *)
Definition Eff (A : Type) : Type := State -> Result A * State.

Definition pure {A : Type} (a : A) : Eff A := fun st => (inr a, st).

Definition fromResult {A : Type} (r : Result A) : Eff A := fun st => (r, st).

Definition next {A B : Type} (m : Eff A) (k : A -> Eff B) : Eff B :=
  fun st =>
    match m st with
    | (inl e, st') => (inl e, st')
    | (inr a, st') => k a st'
    end.

(** A computation on the grants alone. *)
Definition onWorld {A : Type} (m : M A) : Eff A :=
  fun st =>
    let (r, w') := m (world st) in
    (r, {| world := w'; tokens := tokens st |}).

(** A registration in the token map. *)
Definition onTokens {A : Type} (f : TokenMap.t -> A * TokenMap.t) : Eff A :=
  fun st =>
    let (a, t') := f (tokens st) in
    (inr a, {| world := world st; tokens := t' |}).

Notation "x <~ m ;; k" := (next m (fun x => k))
  (at level 61, m at next level, right associativity).
Notation "m ~~ k" := (next m (fun _ => k))
  (at level 61, right associativity).

Module Fn.

(** [Fn.split]: the pieces of a source without token; a list token that
    stands for the split otherwise. *)
Definition split (delimiter : ascii) (source : string) : Eff (list string) :=
  if negb (Token.isUnresolved source) then pure (Str.split delimiter source)
  else onTokens (TokenMap.registerList (FnSplit delimiter source)).

(** [Fn.select]: the element at [index] (none past the end) when neither
    the array nor an element of it is a token; a token that stands for the
    selection otherwise. *)
Definition select (index : nat) (array : list string) : Eff (option string) :=
  if negb (Token.isUnresolvedList array) && negb (existsb Token.isUnresolved array)
  then pure (nth_error array index)
  else token <~ onTokens (TokenMap.registerString (FnSelect index array)) ;;
       pure (Some token).

End Fn.

(** [Fn.select(1, Fn.split(':', uri))], the expression that both the
    Directory and the Asset source evaluate on the image URI. *)
Definition extractTag (uri : string) : Eff (option string) :=
  pieces <~ Fn.split ":" uri ;;
  Fn.select 1 pieces.

(** The state once [g] has been issued. *)
Definition withGrant (g : Grant.t) (st : State) : State :=
  {| world := addGrant g (world st); tokens := tokens st |}.

(** The pull grant that [repository.grantPull(context.handlerRole)]
    issues. *)
Definition pull (repository : Repository.t) (context : SourceContext.t) : Grant.t :=
  {| Grant.actions := Grant.Pull;
     Grant.resource := Repository.repositoryArn repository;
     Grant.grantee := SourceContext.handlerRole context |}.

(** [tag] is a string token that the token map of [st] takes for the
    selection of index 1 in a list token, itself taken for the split of
    [uri] at [':']. *)
Definition standsForSelect (tag : option string) (uri : string) (st : State)
  : Prop :=
  exists key listKey,
    tag = Some ("${Token[" ++ key ++ "]}")
    /\ In (key, FnSelect 1 ["#{Token[" ++ listKey ++ "]}"])
         (TokenMap.stringTokenMap (tokens st))
    /\ In (listKey, FnSplit ":" uri) (TokenMap.stringTokenMap (tokens st)).

(** [Construct]: [Stack.of(scope)] walks up from the scope to the first
    stack and throws when there is none; a scope carries what the walk
    gives. *)
Module Construct.
Record t : Type := { path : string; enclosingStack : Result Stack.t }.
End Construct.

(** [Stack.of(scope)] *)
Definition Stack_of (scope : Construct.t) : Eff Stack.t :=
  fromResult (Construct.enclosingStack scope).

(** The variants of [Source.t], constructed and bound at synthesis time. *)
Module Source.

Definition directory (path : string) : Source.t := Source.DirectorySource path.

Definition ecr (repository : Repository.t) (tag : string) : Source.t :=
  Source.EcrSource repository tag.

Definition asset (asset : DockerImageAsset.t) : Eff Source.t :=
  pieces <~ Fn.split ":" (DockerImageAsset.imageUri asset) ;;
  tag <~ Fn.select 1 pieces ;;
  pure (Source.AssetSource (DockerImageAsset.repository asset) tag).

Section Bind.

Variable newDockerImageAsset :
  Construct.t -> string -> DockerImageAsset.Props -> Eff DockerImageAsset.t.

Definition bind (self : Source.t) (scope : Construct.t) (context : SourceContext.t)
  : Eff SourceConfig.t :=
  match self with
  | Source.DirectorySource path =>
      accountId <~ (stack <~ Stack_of scope ;; pure (Stack.account stack)) ;;
      region <~ (stack <~ Stack_of scope ;; pure (Stack.region stack)) ;;
      asset <~ newDockerImageAsset scope "asset"
                 {| DockerImageAsset.directory := path |} ;;
      onWorld (Repository.grantPull (DockerImageAsset.repository asset)
                 (SourceContext.handlerRole context)) ~~
      pieces <~ Fn.split ":" (DockerImageAsset.imageUri asset) ;;
      tag <~ Fn.select 1 pieces ;;
      pure {| SourceConfig.imageUri := DockerImageAsset.imageUri asset;
              SourceConfig.imageTag := tag;
              SourceConfig.loginConfig :=
                {| LoginConfig.loginCommand :=
                    "aws ecr get-login-password --region " ++ region
                      ++ " | docker login --username AWS --password-stdin "
                      ++ accountId ++ ".dkr.ecr." ++ region ++ ".amazonaws.com";
                   LoginConfig.loginType := ECR;
                   LoginConfig.region := Some region |} |}
  | Source.EcrSource repository tag =>
      let accountId := Env.account (Repository.env repository) in
      let region := Env.region (Repository.env repository) in
      onWorld (Repository.grantPull repository
                 (SourceContext.handlerRole context)) ~~
      pure {| SourceConfig.imageUri :=
                Repository.repositoryUriForTag repository (Some tag);
              SourceConfig.imageTag := Some tag;
              SourceConfig.loginConfig :=
                {| LoginConfig.loginCommand :=
                    "aws ecr get-login-password --region " ++ region
                      ++ " | docker login --username AWS --password-stdin "
                      ++ accountId ++ ".dkr.ecr." ++ region ++ ".amazonaws.com";
                   LoginConfig.loginType := ECR;
                   LoginConfig.region := Some region |} |}
  | Source.AssetSource repository tag =>
      accountId <~ (stack <~ Stack_of scope ;; pure (Stack.account stack)) ;;
      region <~ (stack <~ Stack_of scope ;; pure (Stack.region stack)) ;;
      onWorld (Repository.grantPull repository
                 (SourceContext.handlerRole context)) ~~
      pure {| SourceConfig.imageUri :=
                Repository.repositoryUriForTag repository tag;
              SourceConfig.imageTag := tag;
              SourceConfig.loginConfig :=
                {| LoginConfig.loginCommand :=
                    "aws ecr get-login-password --region " ++ region
                      ++ " | docker login --username AWS --password-stdin "
                      ++ accountId ++ ".dkr.ecr." ++ region ++ ".amazonaws.com";
                   LoginConfig.loginType := ECR;
                   LoginConfig.region := Some region |} |}
  end.

End Bind.

(** The account and region a variant resolves at bind time, when it
    resolves them. *)
Definition resolved (self : Source.t) (scope : Construct.t)
  : option (string * string) :=
  match self with
  | Source.EcrSource repository _ =>
      Some (Env.account (Repository.env repository),
            Env.region (Repository.env repository))
  | _ =>
      match Construct.enclosingStack scope with
      | inr stack => Some (Stack.account stack, Stack.region stack)
      | inl _ => None
      end
  end.

End Source.

(** A scope inside [stack]. *)
Definition inStack (path : string) (stack : Stack.t) : Construct.t :=
  {| Construct.path := path; Construct.enclosingStack := inr stack |}.

End Synth.

(** ** Sample collaborators, used to run the code on concrete inputs *)

Module Sample.

Definition env : Env.t :=
  {| Env.account := "123456789012"; Env.region := "us-east-1" |}.

Definition repo : Repository.t :=
  {| Repository.repositoryArn := "arn:aws:ecr:us-east-1:123456789012:repository/app";
     Repository.repositoryUri := "123456789012.dkr.ecr.us-east-1.amazonaws.com/app";
     Repository.env := env |}.

Definition role : IGrantable.t :=
  {| IGrantable.grantPrincipal := "arn:aws:iam::123456789012:role/handler" |}.

Definition context : SourceContext.t := {| SourceContext.handlerRole := role |}.

Definition scope : Construct.t :=
  {| Construct.path := "App/Stack/Deployment";
     Construct.stack :=
       {| Stack.account := "123456789012"; Stack.region := "us-east-1" |} |}.

Definition world0 : World := {| grants := [] |}.

Definition assetAt (uri : string) : DockerImageAsset.t :=
  {| DockerImageAsset.repository := repo; DockerImageAsset.imageUri := uri |}.

(** A packaging service that always publishes at [uri]. *)
Definition packaging (uri : string)
  : Construct.t -> string -> DockerImageAsset.Props -> M DockerImageAsset.t :=
  fun _ _ _ => ret (assetAt uri).

Definition portUri : string := "registry.example.com:5000/repo/image:v1.2.3".

(** A tag of 129 characters. *)
Definition longTag : string := string_of_list_ascii (List.repeat "a"%char 129).

(** The same scope at synthesis time, and a scope that is in no stack. *)
Definition synthScope : Synth.Construct.t :=
  Synth.inStack "App/Stack/Deployment"
    {| Stack.account := "123456789012"; Stack.region := "us-east-1" |}.

Definition orphanScope : Synth.Construct.t :=
  {| Synth.Construct.path := "Deployment";
     Synth.Construct.enclosingStack :=
       inl (Error "Construct at 'Deployment' should be created in the scope of a Stack, but no Stack found") |}.

(** No grant yet, seven tokens registered before. *)
Definition state0 : Synth.State :=
  {| Synth.world := world0;
     Synth.tokens := {| Synth.TokenMap.tokenCounter := 7;
                        Synth.TokenMap.stringTokenMap := [] |} |}.

Definition synthPackaging (uri : string)
  : Synth.Construct.t -> string -> DockerImageAsset.Props
    -> Synth.Eff DockerImageAsset.t :=
  fun _ _ _ => Synth.pure (assetAt uri).

Definition synthFailingPackaging
  : Synth.Construct.t -> string -> DockerImageAsset.Props
    -> Synth.Eff DockerImageAsset.t :=
  fun _ _ _ st => (inl (Error "Cannot find image directory"), st).

(** An image URI that holds a token. *)
Definition tokenUri : string := "${Token[TOKEN.5]}".

Definition pullGrant : Grant.t :=
  {| Grant.actions := Grant.Pull;
     Grant.resource := Repository.repositoryArn repo;
     Grant.grantee := role |}.

Definition pullPushGrant : Grant.t :=
  {| Grant.actions := Grant.PullPush;
     Grant.resource := Repository.repositoryArn repo;
     Grant.grantee := role |}.

End Sample.

(** * Properties *)

(** ** The matcher agrees with the language of a regular expression *)

Module RegExpFacts.
Import RegExp.

Lemma append_empty (s1 s2 : string) : s1 ++ s2 = "" -> s1 = "" /\ s2 = "".
Proof. destruct s1; simpl; intros H; [auto | discriminate]. Qed.

Lemma append_cons (s1 s2 s : string) (c : ascii) :
  s1 ++ s2 = String c s ->
  (s1 = "" /\ s2 = String c s) \/ (exists s1', s1 = String c s1' /\ s = s1' ++ s2).
Proof.
  destruct s1 as [|x s1']; simpl; intros H.
  - left; auto.
  - right. injection H as -> <-. eauto.
Qed.

Lemma nullable_Matches (r : t) : nullable r = true -> Matches r "".
Proof.
  induction r; simpl; intros H; try discriminate.
  - constructor.
  - apply andb_true_iff in H as [H1 H2].
    change "" with ("" ++ ""). constructor; auto.
  - apply orb_true_iff in H as [H | H]; [apply MAltL | apply MAltR]; auto.
  - constructor.
Qed.

Lemma Matches_nullable (r : t) (s : string) :
  Matches r s -> s = "" -> nullable r = true.
Proof.
  induction 1; simpl; intros E; try discriminate; auto.
  - apply append_empty in E as [-> ->]. rewrite IHMatches1, IHMatches2; auto.
  - rewrite IHMatches; auto.
  - rewrite IHMatches; auto using orb_true_r.
Qed.

Lemma Matches_deriv (r : t) (cs : string) :
  Matches r cs -> forall c s, cs = String c s -> Matches (deriv c r) s.
Proof.
  induction 1; intros c0 s0 E; simpl; try discriminate.
  - injection E as -> <-. rewrite H. constructor.
  - apply append_cons in E as [[-> ->] | (s1' & -> & ->)].
    + rewrite (Matches_nullable r1 "" H eq_refl). apply MAltR. eauto.
    + destruct (nullable r1).
      * apply MAltL. constructor; eauto.
      * constructor; eauto.
  - apply MAltL; eauto.
  - apply MAltR; eauto.
  - apply append_cons in E as [[-> ->] | (s1' & -> & ->)].
    + exact (IHMatches2 _ _ eq_refl).
    + constructor; eauto.
Qed.

Lemma deriv_Matches (r : t) (c : ascii) :
  forall s, Matches (deriv c r) s -> Matches r (String c s).
Proof.
  induction r; simpl; intros s H.
  - inversion H.
  - inversion H.
  - destruct (classHas negated atoms c) eqn:E; inversion H; subst.
    constructor; assumption.
  - destruct (nullable r1) eqn:N.
    + inversion H as [| | | ? ? ? HL | ? ? ? HR | |]; subst.
      * inversion HL; subst.
        change (Matches (Seq r1 r2) (String c s1 ++ s2)). constructor; auto.
      * change (Matches (Seq r1 r2) ("" ++ String c s)).
        constructor; auto using nullable_Matches.
    + inversion H; subst.
      change (Matches (Seq r1 r2) (String c s1 ++ s2)). constructor; auto.
  - inversion H; subst; [apply MAltL | apply MAltR]; auto.
  - inversion H; subst.
    change (Matches (Star r) (String c s1 ++ s2)). constructor; auto.
Qed.

(** The matcher decides membership in the language. *)
Lemma test_Matches (s : string) : forall r, test r s = true <-> Matches r s.
Proof.
  induction s as [|c s IH]; intros r; simpl.
  - split; [apply nullable_Matches | intros H; eapply Matches_nullable; eauto].
  - rewrite IH. split; [apply deriv_Matches | intros H; eapply Matches_deriv; eauto].
Qed.

(** One character of a class. *)
Lemma Matches_Class (negated : bool) (atoms : list ClassAtom) (s : string) :
  Matches (Class negated atoms) s <->
  exists c, s = String c "" /\ classHas negated atoms c = true.
Proof.
  split.
  - intros H; inversion H; subst; eauto.
  - intros (c & -> & H). constructor; assumption.
Qed.

(** Any number of characters of a class. *)
Lemma Matches_Star_Class (negated : bool) (atoms : list ClassAtom) (s : string) :
  Matches (Star (Class negated atoms)) s <->
  Str.all (classHas negated atoms) s = true.
Proof.
  split.
  - intros H. remember (Star (Class negated atoms)) as r eqn:E.
    induction H; try discriminate; auto.
    injection E as ->. inversion H; subst. simpl.
    rewrite IHMatches2 by reflexivity.
    match goal with A : classHas _ _ _ = true |- _ => rewrite A end. reflexivity.
  - induction s as [|c s IH]; simpl; intros H.
    + constructor.
    + apply andb_true_iff in H as [Hc Hs].
      change (String c s) with (String c "" ++ s).
      constructor; [constructor | ]; auto.
Qed.

End RegExpFacts.

(** ** The tag validator *)

Module TagFacts.
Import RegExp RegExpFacts.

Lemma restClass_isTagChar (c : ascii) : classHas false restClass c = isTagChar c.
Proof. destruct c as [[] [] [] [] [] [] [] []]; reflexivity. Qed.

Lemma firstClass_spec (c : ascii) :
  classHas true firstClass c = true <-> c <> "-"%char /\ c <> "."%char.
Proof.
  unfold classHas, firstClass; simpl.
  destruct (Ascii.eqb_spec c "-"), (Ascii.eqb_spec c "."); simpl;
    intuition congruence.
Qed.

Lemma all_ext (p q : ascii -> bool) (s : string) :
  (forall c, p c = q c) -> Str.all p s = Str.all q s.
Proof. intros E; induction s; simpl; [|rewrite E, IHs]; reflexivity. Qed.

(** The language of the tag pattern: a first character other than ['-'] and
    ['.'], then one or more characters of the tag alphabet. *)
Lemma tagPattern_Matches (t : string) :
  Matches tagPattern t <->
  exists c rest,
    t = String c rest /\ c <> "-"%char /\ c <> "."%char /\
    rest <> "" /\ Str.all isTagChar rest = true.
Proof.
  unfold tagPattern, Plus. split.
  - intros H. inversion H as [| |? ? s1 s2 H1 H2| | | |]; subst.
    apply Matches_Class in H1 as (c & -> & Hc).
    inversion H2 as [| |? ? s3 s4 H3 H4| | | |]; subst.
    apply Matches_Class in H3 as (c' & -> & Hc').
    apply Matches_Star_Class in H4.
    exists c, (String c' s4). apply firstClass_spec in Hc as [? ?].
    repeat split; auto; try discriminate.
    simpl. rewrite <- restClass_isTagChar, Hc'. simpl.
    rewrite (all_ext isTagChar (classHas false restClass)); [exact H4|].
    intros; symmetry; apply restClass_isTagChar.
  - intros (c & rest & -> & H1 & H2 & H3 & H4).
    destruct rest as [|c' s4]; [congruence|]. simpl in H4.
    apply andb_true_iff in H4 as [Hc' Hs].
    change (String c (String c' s4)) with (String c "" ++ (String c' "" ++ s4)).
    constructor; [|constructor].
    + constructor. apply firstClass_spec; auto.
    + constructor. rewrite restClass_isTagChar; assumption.
    + apply Matches_Star_Class. rewrite <- Hs. apply all_ext, restClass_isTagChar.
Qed.

Lemma validateTag_ok (t : string) :
  validateTag t = inr tt <->
  String.length t <= 128 /\ RegExp.test tagPattern t = true.
Proof.
  unfold validateTag.
  destruct (Nat.ltb_spec 128 (String.length t)) as [L | L].
  - split; [discriminate | intros [? _]; lia].
  - destruct (test tagPattern t); simpl; split; try discriminate; auto.
    intros [_ ?]; discriminate.
Qed.

Lemma messages_differ (t t' : string) :
  tooLongMessage t <> invalidCharactersMessage t'.
Proof. unfold tooLongMessage, invalidCharactersMessage; simpl; discriminate. Qed.

(** From two characters on, the rule of the specification and the code
    accept the same tags. *)
Lemma specValidTag_from_two (t : string) :
  2 <= String.length t -> specValidTag t = true -> validateTag t = inr tt.
Proof.
  intros L H. unfold specValidTag in H.
  apply andb_true_iff in H as [H HA].
  apply andb_true_iff in H as [H HF].
  apply andb_true_iff in H as [_ HL].
  apply validateTag_ok. split; [apply Nat.leb_le; assumption|].
  apply test_Matches, tagPattern_Matches.
  destruct t as [|c rest]; [discriminate|].
  exists c, rest. simpl in HA.
  apply andb_true_iff in HA as [_ HA].
  apply andb_true_iff in HF as [F1 F2].
  apply negb_true_iff in F1, F2.
  apply Ascii.eqb_neq in F1, F2.
  repeat split; auto. destruct rest; simpl in L; [lia | discriminate].
Qed.

End TagFacts.

(** C10. The validator accepts a tag exactly when it has at most 128
    characters and matches the pattern, that is: a first character other
    than ['-'] and ['.'] (of any kind), followed by at least one character, all
    of them of the tag alphabet.  So no tag of length 0 or 1 is accepted, not
    even ["a"], while ["!abc"] is. *)
Theorem validateTag_accepts_exactly :
  (forall t, validateTag t = inr tt <->
             String.length t <= 128 /\ RegExp.Matches tagPattern t)
  /\ (forall t, validateTag t = inr tt <->
                String.length t <= 128 /\
                exists c rest,
                  t = String c rest /\ c <> "-"%char /\ c <> "."%char /\
                  rest <> "" /\ Str.all isTagChar rest = true)
  /\ (forall t, String.length t <= 1 -> validateTag t <> inr tt)
  /\ validateTag "a" = inl (Error (invalidCharactersMessage "a"))
  /\ isTagChar "!" = false
  /\ validateTag "!abc" = inr tt.
Proof.
  assert (A : forall t, validateTag t = inr tt <->
                        String.length t <= 128 /\ RegExp.Matches tagPattern t).
  { intros t. rewrite TagFacts.validateTag_ok, RegExpFacts.test_Matches. tauto. }
  split; [exact A|].
  split; [intros t; rewrite A, TagFacts.tagPattern_Matches; tauto|].
  split; [|repeat split; reflexivity].
  intros t L H. apply A in H as [_ H].
  apply TagFacts.tagPattern_Matches in H as (c & rest & -> & _ & _ & N & _).
  destruct rest; [congruence | simpl in L; lia].
Qed.

Lemma validateTag_accepts_exactly_witness :
  String.length "a" <= 1 /\ validateTag "a" <> inr tt.
Proof.
  split; [simpl; lia|].
  apply (proj1 (proj2 (proj2 validateTag_accepts_exactly)) "a"). simpl; lia.
Defined.

(** C2 (the code departs from it).  The one-character tag ["a"] satisfies
    every rule of the specification, and the validator throws the
    character-rule error for it. *)
Theorem validateTag_rejects_one_character :
  specValidTag "a" = true
  /\ validateTag "a" = inl (Error (invalidCharactersMessage "a")).
Proof. split; reflexivity. Qed.

(** C4. A tag of more than 128 characters is rejected with the length
    error, whatever its characters; the length error and the character-rule
    error never carry the same message, and the character-rule error is only
    thrown for a tag within the length bound. *)
Theorem validateTag_too_long :
  (forall t, 128 < String.length t ->
             validateTag t = inl (Error (tooLongMessage t)))
  /\ (forall t t', tooLongMessage t <> invalidCharactersMessage t')
  /\ (forall t t', validateTag t = inl (Error (invalidCharactersMessage t')) ->
                   String.length t <= 128 /\ RegExp.test tagPattern t = false).
Proof.
  split; [|split].
  - intros t L. unfold validateTag.
    destruct (Nat.ltb_spec 128 (String.length t)); [reflexivity | lia].
  - apply TagFacts.messages_differ.
  - intros t t'. unfold validateTag.
    destruct (Nat.ltb_spec 128 (String.length t)) as [L | L].
    + intros H. exfalso. apply (TagFacts.messages_differ t t'). congruence.
    + destruct (RegExp.test tagPattern t); simpl; [discriminate | auto].
Qed.

Lemma validateTag_too_long_witness :
  (128 < String.length Sample.longTag
   /\ validateTag Sample.longTag = inl (Error (tooLongMessage Sample.longTag)))
  /\ (validateTag ".bad" = inl (Error (invalidCharactersMessage ".bad"))
      /\ String.length ".bad" <= 128 /\ RegExp.test tagPattern ".bad" = false).
Proof.
  split.
  - split; [vm_compute; lia|].
    apply (proj1 validateTag_too_long). vm_compute; lia.
  - split; [reflexivity|].
    apply (proj2 (proj2 validateTag_too_long) ".bad" ".bad"). reflexivity.
Defined.

(** ** Tag extraction *)

Module ExtractFacts.

Lemma split_without_sep (sep : ascii) (s : string) :
  Str.mem sep s = false -> Str.split sep s = [s].
Proof.
  induction s as [|c s IH]; simpl; intros H; [reflexivity|].
  apply orb_false_iff in H as [H1 H2]. rewrite H1, IH; auto.
Qed.

Lemma afterLast_without_sep (sep : ascii) (s : string) :
  Str.mem sep s = false -> Str.afterLast sep s = None.
Proof.
  induction s as [|c s IH]; simpl; intros H; [reflexivity|].
  apply orb_false_iff in H as [H1 H2]. rewrite H1, IH; auto.
Qed.

Lemma split_nonempty (sep : ascii) (s : string) : Str.split sep s <> [].
Proof.
  destruct s as [|c s]; simpl; [discriminate|].
  destruct (Ascii.eqb c sep); [discriminate|].
  destruct (Str.split sep s); discriminate.
Qed.

(** A URI without [':'] has one piece only, so there is no second one. *)
Lemma select_without_colon (uri : string) :
  Str.mem ":" uri = false -> Fn.select 1 (Fn.split ":" uri) = None.
Proof.
  intros H. unfold Fn.select, Fn.split.
  rewrite split_without_sep by assumption. reflexivity.
Qed.


End ExtractFacts.

(** C1 (the code departs from it).  For the image URI
    ["registry.example.com:5000/repo/image:v1.2.3"] the part after the last
    [':'] is ["v1.2.3"], and both the Directory and the Asset source return
    the second piece of the split, ["5000/repo/image"], as [imageTag]. *)
Theorem imageTag_is_second_piece_of_port_uri :
  Str.afterLast ":" Sample.portUri = Some "v1.2.3"
  /\ (exists cfg w,
         Source.bind (Sample.packaging Sample.portUri) (Source.directory "docker")
           Sample.scope Sample.context Sample.world0 = (inr cfg, w)
         /\ SourceConfig.imageTag cfg = Some "5000/repo/image")
  /\ (exists cfg w,
         Source.bind (Sample.packaging Sample.portUri)
           (Source.asset (Sample.assetAt Sample.portUri))
           Sample.scope Sample.context Sample.world0 = (inr cfg, w)
         /\ SourceConfig.imageTag cfg = Some "5000/repo/image").
Proof.
  split; [reflexivity|].
  split; eexists; eexists; (split; [lazy; reflexivity | reflexivity]).
Qed.

(** ** Construction and binding *)

(** C3. When the tag override fails validation, [Destination.ecr] throws the
    validator's error and returns no destination, so [bind] cannot be called
    on it; the grants are as they were.  Construction issues no grant in any
    case. *)
Theorem ecr_invalid_tag_throws_before_any_grant :
  (forall repository options tag e w,
      optionsTag options = Some tag ->
      validateTag tag = inl e ->
      Destination.ecr repository options w = (inl e, w))
  /\ (forall repository options w r w',
         Destination.ecr repository options w = (r, w') -> w' = w).
Proof.
  split.
  - intros repository options tag e w Ho Hv.
    unfold Destination.ecr, andThen, liftResult. rewrite Ho, Hv. reflexivity.
  - intros repository options w r w'.
    unfold Destination.ecr, andThen, liftResult, ret.
    destruct (optionsTag options) as [tag|]; [destruct (validateTag tag)|];
      intros H; injection H as _ <-; reflexivity.
Qed.

Lemma ecr_invalid_tag_throws_before_any_grant_witness :
  validateTag ".bad" = inl (Error (invalidCharactersMessage ".bad"))
  /\ Destination.ecr Sample.repo (Some {| EcrSourceOptions.tag := Some ".bad" |})
       Sample.world0
     = (inl (Error (invalidCharactersMessage ".bad")), Sample.world0)
  /\ grants Sample.world0 = [].
Proof.
  split; [reflexivity|]. split; [|reflexivity].
  apply (proj1 ecr_invalid_tag_throws_before_any_grant
           Sample.repo (Some {| EcrSourceOptions.tag := Some ".bad" |}) ".bad");
    reflexivity.
Defined.

(** C6. Binding [Source.ecr(repo, t)] succeeds and its [imageTag] is the
    string [t] given at construction, as it is. *)
Theorem ecr_source_returns_tag_as_given :
  forall newAsset repository t scope context w,
  exists cfg w',
    Source.bind newAsset (Source.ecr repository t) scope context w = (inr cfg, w')
    /\ SourceConfig.imageTag cfg = Some t.
Proof.
  intros. eexists; eexists. split; [lazy; reflexivity | reflexivity].
Qed.

(** C7. Without a tag option, construction succeeds and the bound
    configuration has no [destinationTag]; binding does not throw.  With a
    tag override that passes validation, [destinationTag] is that override. *)
Theorem ecr_destination_tag :
  (forall repository options role w0 w,
      optionsTag options = None ->
      exists d cfg w',
        Destination.ecr repository options w0 = (inr d, w0)
        /\ Destination.bind d role w = (inr cfg, w')
        /\ DestinationConfig.destinationTag cfg = None)
  /\ (forall repository options tag role w0 w,
         optionsTag options = Some tag ->
         validateTag tag = inr tt ->
         exists d cfg w',
           Destination.ecr repository options w0 = (inr d, w0)
           /\ Destination.bind d role w = (inr cfg, w')
           /\ DestinationConfig.destinationTag cfg = Some tag).
Proof.
  split.
  - intros repository options role w0 w Ho.
    unfold Destination.ecr. rewrite Ho.
    eexists; eexists; eexists. repeat split.
  - intros repository options tag role w0 w Ho Hv.
    unfold Destination.ecr, andThen, liftResult. rewrite Ho, Hv.
    eexists; eexists; eexists. split; [reflexivity|]. split; [reflexivity|].
    exact Ho.
Qed.

Lemma ecr_destination_tag_witness :
  (exists d cfg w',
      Destination.ecr Sample.repo None Sample.world0 = (inr d, Sample.world0)
      /\ Destination.bind d Sample.role Sample.world0 = (inr cfg, w')
      /\ DestinationConfig.destinationTag cfg = None)
  /\ (exists d cfg w',
         Destination.ecr Sample.repo (Some {| EcrSourceOptions.tag := Some "v1" |})
           Sample.world0 = (inr d, Sample.world0)
         /\ Destination.bind d Sample.role Sample.world0 = (inr cfg, w')
         /\ DestinationConfig.destinationTag cfg = Some "v1").
Proof.
  split.
  - apply (proj1 ecr_destination_tag Sample.repo None). reflexivity.
  - apply (proj2 ecr_destination_tag Sample.repo
             (Some {| EcrSourceOptions.tag := Some "v1" |}) "v1"); reflexivity.
Defined.

(** ** The login configuration *)

Module BindFacts.

Lemma source_loginConfig newAsset src scope context w cfg w' :
  Source.bind newAsset src scope context w = (inr cfg, w') ->
  SourceConfig.loginConfig cfg
  = buildLogin (Source.account src scope) (Source.region src scope).
Proof.
  destruct src as [path | repository tag | repository tag];
    unfold Source.bind, andThen, ret; simpl.
  - destruct (newAsset scope "asset" _ w) as [[e | asset] w1];
      intros H; [discriminate|]. injection H as <- _. reflexivity.
  - intros H; injection H as <- _. reflexivity.
  - intros H; injection H as <- _. reflexivity.
Qed.

Lemma destination_loginConfig dst role w cfg w' :
  Destination.bind dst role w = (inr cfg, w') ->
  DestinationConfig.loginConfig cfg
  = buildLogin (Destination.account dst) (Destination.region dst).
Proof.
  destruct dst as [repository options].
  unfold Destination.bind, andThen, ret; simpl.
  intros H; injection H as <- _. reflexivity.
Qed.

End BindFacts.

(** ** Binding more than once *)

(** C9, as the code has it.  [bind] keeps no record of having run.  A
    destination, a Registry-reference source and an Asset source bind again
    in the world the first call left: the second call returns the same
    configuration and issues the grant once more.  A Directory source calls
    the packaging service on every bind and, whenever that returns an asset,
    issues the pull grant on the asset's repository and returns. *)
Theorem bind_is_repeatable :
  (forall repository options role w,
      let g := {| Grant.actions := Grant.PullPush;
                  Grant.resource := Repository.repositoryArn repository;
                  Grant.grantee := role |} in
      exists cfg,
        Destination.bind (Destination.EcrDestination repository options) role w
        = (inr cfg, addGrant g w)
        /\ Destination.bind (Destination.EcrDestination repository options) role
             (addGrant g w)
           = (inr cfg, addGrant g (addGrant g w)))
  /\ (forall newAsset src scope context w,
         (forall path, src <> Source.DirectorySource path) ->
         exists cfg g,
           Source.bind newAsset src scope context w = (inr cfg, addGrant g w)
           /\ Source.bind newAsset src scope context (addGrant g w)
              = (inr cfg, addGrant g (addGrant g w)))
  /\ (forall newAsset path scope context w asset w1,
         newAsset scope "asset" {| DockerImageAsset.directory := path |} w
         = (inr asset, w1) ->
         exists cfg,
           Source.bind newAsset (Source.DirectorySource path) scope context w
           = (inr cfg,
              addGrant {| Grant.actions := Grant.Pull;
                          Grant.resource :=
                            Repository.repositoryArn
                              (DockerImageAsset.repository asset);
                          Grant.grantee := SourceContext.handlerRole context |}
                w1)).
Proof.
  split; [|split].
  - intros repository options role w g. eexists. split; reflexivity.
  - intros newAsset src scope context w N.
    destruct src as [path | repository tag | repository tag].
    + exfalso. exact (N path eq_refl).
    + eexists; eexists. split; reflexivity.
    + eexists; eexists. split; reflexivity.
  - intros newAsset path scope context w asset w1 E.
    unfold Source.bind, andThen. rewrite E. eexists. reflexivity.
Qed.

Lemma bind_is_repeatable_witness :
  (exists cfg g,
      Source.bind (Sample.packaging "app:v1") (Source.ecr Sample.repo "v1")
        Sample.scope Sample.context Sample.world0
      = (inr cfg, addGrant g Sample.world0)
      /\ Source.bind (Sample.packaging "app:v1") (Source.ecr Sample.repo "v1")
           Sample.scope Sample.context (addGrant g Sample.world0)
         = (inr cfg, addGrant g (addGrant g Sample.world0)))
  /\ (exists cfg,
         Source.bind (Sample.packaging "app:v1") (Source.DirectorySource "docker")
           Sample.scope Sample.context (addGrant Sample.pullGrant Sample.world0)
         = (inr cfg,
            addGrant Sample.pullGrant (addGrant Sample.pullGrant Sample.world0))).
Proof.
  split.
  - apply (proj1 (proj2 bind_is_repeatable)). intros path; discriminate.
  - apply (proj2 (proj2 bind_is_repeatable) (Sample.packaging "app:v1") "docker"
             Sample.scope Sample.context
             (addGrant Sample.pullGrant Sample.world0)
             (Sample.assetAt "app:v1")).
    reflexivity.
Defined.

(** C9 as stated fails: a destination built by [Destination.ecr] binds twice
    in a row; the second call returns a configuration again, and two grants
    have been issued. *)
Lemma second_bind_succeeds :
  Destination.ecr Sample.repo None Sample.world0
  = (inr (Destination.EcrDestination Sample.repo None), Sample.world0)
  /\ Destination.bind (Destination.EcrDestination Sample.repo None) Sample.role
       Sample.world0
     = (inr {| DestinationConfig.destinationUri := Repository.repositoryUri Sample.repo;
               DestinationConfig.loginConfig := buildLogin "123456789012" "us-east-1";
               DestinationConfig.destinationTag := None |},
        {| grants := [Sample.pullPushGrant] |})
  /\ Destination.bind (Destination.EcrDestination Sample.repo None) Sample.role
       {| grants := [Sample.pullPushGrant] |}
     = (inr {| DestinationConfig.destinationUri := Repository.repositoryUri Sample.repo;
               DestinationConfig.loginConfig := buildLogin "123456789012" "us-east-1";
               DestinationConfig.destinationTag := None |},
        {| grants := [Sample.pullPushGrant; Sample.pullPushGrant] |}).
Proof. repeat split. Qed.

(** * Further properties of the code *)

(** ** Strings and pieces *)

Module PieceFacts.

Lemma append_empty_r (s : string) : s ++ "" = s.
Proof. induction s; simpl; [|rewrite IHs]; reflexivity. Qed.

Lemma length_app (a b : string) :
  String.length (a ++ b) = String.length a + String.length b.
Proof. induction a; simpl; [|rewrite IHa]; reflexivity. Qed.

Lemma all_app (p : ascii -> bool) (a b : string) :
  Str.all p (a ++ b) = Str.all p a && Str.all p b.
Proof. induction a; simpl; [|rewrite IHa, andb_assoc]; reflexivity. Qed.

Lemma app_cancel_l (p x y : string) : p ++ x = p ++ y -> x = y.
Proof. induction p; simpl; intros H; [|injection H as H]; auto. Qed.

Lemma app_cancel_r (s : string) : forall x y, x ++ s = y ++ s -> x = y.
Proof.
  induction x as [|c x IH]; intros [|d y] H; simpl in H.
  - reflexivity.
  - apply (f_equal String.length) in H. simpl in H. rewrite length_app in H. lia.
  - apply (f_equal String.length) in H. simpl in H. rewrite length_app in H. lia.
  - injection H as -> H. f_equal. auto.
Qed.

Lemma mem_count (c : ascii) (s : string) :
  Str.mem c s = false <-> Str.count c s = 0.
Proof.
  induction s as [|x s IH]; simpl; [tauto|].
  destruct (Ascii.eqb x c); simpl; [split; [discriminate | lia] | exact IH].
Qed.

(** There is one piece more than there are separators. *)
Lemma split_length (sep : ascii) (s : string) :
  List.length (Str.split sep s) = S (Str.count sep s).
Proof.
  induction s as [|c s IH]; simpl; [reflexivity|].
  destruct (Ascii.eqb c sep); simpl; [rewrite IH; reflexivity|].
  destruct (Str.split sep s); simpl in *; [discriminate | exact IH].
Qed.

(** No piece contains the separator. *)
Lemma split_pieces (sep : ascii) (s : string) :
  Forall (fun p => Str.mem sep p = false) (Str.split sep s).
Proof.
  induction s as [|c s IH]; simpl.
  - repeat constructor.
  - destruct (Ascii.eqb c sep) eqn:E.
    + constructor; [reflexivity | exact IH].
    + destruct (Str.split sep s) as [|p ps]; [repeat constructor; simpl; rewrite E; reflexivity|].
      inversion IH; subst. constructor; [simpl; rewrite E; assumption | assumption].
Qed.



Lemma select_defined (uri : string) :
  Fn.select 1 (Fn.split ":" uri) = None <-> Str.mem ":" uri = false.
Proof.
  unfold Fn.select, Fn.split. rewrite nth_error_None, split_length, mem_count. lia.
Qed.

Lemma select_colon_free (uri t : string) :
  Fn.select 1 (Fn.split ":" uri) = Some t -> Str.mem ":" t = false.
Proof.
  unfold Fn.select, Fn.split. intros H. apply nth_error_In in H.
  pose proof (split_pieces ":" uri) as F. rewrite Forall_forall in F. auto.
Qed.

Lemma select_afterLast (uri : string) :
  Str.count ":" uri <= 1 ->
  Fn.select 1 (Fn.split ":" uri) = Str.afterLast ":" uri.
Proof.
  unfold Fn.select, Fn.split.
  induction uri as [|c s IH]; simpl; intros H; [reflexivity|].
  destruct (Ascii.eqb c ":") eqn:E; simpl in H.
  - assert (N : Str.mem ":" s = false) by (apply mem_count; lia).
    rewrite (ExtractFacts.split_without_sep _ _ N).
    rewrite (ExtractFacts.afterLast_without_sep _ _ N). reflexivity.
  - rewrite <- (IH H).
    destruct (Str.split ":" s) as [|p ps] eqn:S; [|destruct ps; reflexivity].
    exfalso. exact (ExtractFacts.split_nonempty ":" s S).
Qed.

(** What binding an Asset source returns. *)
Lemma asset_bind newAsset (asset : DockerImageAsset.t) scope context w :
  Source.bind newAsset (Source.asset asset) scope context w
  = (inr {| SourceConfig.imageUri :=
              Repository.repositoryUriForTag (DockerImageAsset.repository asset)
                (Fn.select 1 (Fn.split ":" (DockerImageAsset.imageUri asset)));
            SourceConfig.imageTag :=
              Fn.select 1 (Fn.split ":" (DockerImageAsset.imageUri asset));
            SourceConfig.loginConfig :=
              buildLogin (Stack.account (Stack_of scope))
                (Stack.region (Stack_of scope)) |},
     addGrant {| Grant.actions := Grant.Pull;
                 Grant.resource :=
                   Repository.repositoryArn (DockerImageAsset.repository asset);
                 Grant.grantee := SourceContext.handlerRole context |} w).
Proof. reflexivity. Qed.

(** What binding a Directory source returns, by what packaging did. *)
Lemma directory_bind newAsset path scope context w :
  Source.bind newAsset (Source.directory path) scope context w
  = match newAsset scope "asset" {| DockerImageAsset.directory := path |} w with
    | (inl e, w1) => (inl e, w1)
    | (inr asset, w1) =>
        (inr {| SourceConfig.imageUri := DockerImageAsset.imageUri asset;
                SourceConfig.imageTag :=
                  Fn.select 1 (Fn.split ":" (DockerImageAsset.imageUri asset));
                SourceConfig.loginConfig :=
                  buildLogin (Stack.account (Stack_of scope))
                    (Stack.region (Stack_of scope)) |},
         addGrant {| Grant.actions := Grant.Pull;
                     Grant.resource :=
                       Repository.repositoryArn (DockerImageAsset.repository asset);
                     Grant.grantee := SourceContext.handlerRole context |} w1)
    end.
Proof.
  unfold Source.directory, Source.bind, andThen.
  destruct (newAsset scope "asset" _ w) as [[e | asset] w1]; reflexivity.
Qed.

End PieceFacts.

(** ** The tag a Directory or Asset source extracts *)



(** ** Directory and Asset sources *)

(** X4. Once packaging has returned an asset, binding the Directory source
    gives what binding [Source.asset] of that asset gives from there on: the
    same tag, the same login configuration and the same grants.  Only the
    image URI differs: the Directory source returns the asset's URI, the
    Asset source the URI of the asset's repository for the extracted tag. *)
Theorem directory_binds_like_its_asset :
  forall newAsset path scope context w asset w1,
    newAsset scope "asset" {| DockerImageAsset.directory := path |} w
    = (inr asset, w1) ->
    exists cfgD cfgA w',
      Source.bind newAsset (Source.directory path) scope context w = (inr cfgD, w')
      /\ Source.bind newAsset (Source.asset asset) scope context w1 = (inr cfgA, w')
      /\ SourceConfig.imageTag cfgD = SourceConfig.imageTag cfgA
      /\ SourceConfig.loginConfig cfgD = SourceConfig.loginConfig cfgA
      /\ SourceConfig.imageUri cfgD = DockerImageAsset.imageUri asset
      /\ SourceConfig.imageUri cfgA
         = Repository.repositoryUriForTag (DockerImageAsset.repository asset)
             (SourceConfig.imageTag cfgA).
Proof.
  intros newAsset path scope context w asset w1 E.
  rewrite PieceFacts.directory_bind, E, PieceFacts.asset_bind.
  eexists; eexists; eexists. repeat split.
Qed.

Lemma directory_binds_like_its_asset_witness :
  exists cfgD cfgA w',
    Source.bind (Sample.packaging Sample.portUri) (Source.directory "docker")
      Sample.scope Sample.context Sample.world0 = (inr cfgD, w')
    /\ Source.bind (Sample.packaging Sample.portUri)
         (Source.asset (Sample.assetAt Sample.portUri))
         Sample.scope Sample.context Sample.world0 = (inr cfgA, w')
    /\ SourceConfig.imageTag cfgD = SourceConfig.imageTag cfgA
    /\ SourceConfig.loginConfig cfgD = SourceConfig.loginConfig cfgA
    /\ SourceConfig.imageUri cfgD
       = DockerImageAsset.imageUri (Sample.assetAt Sample.portUri)
    /\ SourceConfig.imageUri cfgA
       = Repository.repositoryUriForTag
           (DockerImageAsset.repository (Sample.assetAt Sample.portUri))
           (SourceConfig.imageTag cfgA).
Proof.
  apply (directory_binds_like_its_asset (Sample.packaging Sample.portUri) "docker"
           Sample.scope Sample.context Sample.world0
           (Sample.assetAt Sample.portUri) Sample.world0).
  reflexivity.
Defined.

(** ** Source and destination together *)

(** X6. A source that needs no packaging and a destination bind in either
    order with the same outcome: each returns the same configuration whichever
    goes first, the source issues one pull grant to the handler role, the
    destination one pull-and-push grant to its role, and the grants held
    before stay in front of the two. *)
Theorem source_and_destination_bind_commute :
  forall newAsset src scope context dst role w,
    (forall path, src <> Source.DirectorySource path) ->
    exists scfg dcfg p pp,
      (Grant.actions p = Grant.Pull
       /\ Grant.grantee p = SourceContext.handlerRole context)
      /\ (Grant.actions pp = Grant.PullPush /\ Grant.grantee pp = role)
      /\ Source.bind newAsset src scope context w = (inr scfg, addGrant p w)
      /\ Destination.bind dst role (addGrant p w)
         = (inr dcfg, addGrant pp (addGrant p w))
      /\ Destination.bind dst role w = (inr dcfg, addGrant pp w)
      /\ Source.bind newAsset src scope context (addGrant pp w)
         = (inr scfg, addGrant p (addGrant pp w))
      /\ grants (addGrant pp (addGrant p w)) = (grants w ++ [p; pp])%list
      /\ grants (addGrant p (addGrant pp w)) = (grants w ++ [pp; p])%list.
Proof.
  intros newAsset src scope context [repository options] role w N.
  assert (A : forall g1 g2,
             grants (addGrant g2 (addGrant g1 w)) = (grants w ++ [g1; g2])%list).
  { intros. unfold addGrant; simpl. rewrite <- app_assoc. reflexivity. }
  destruct src as [path | r tag | r tag]; [exfalso; exact (N path eq_refl) | |];
    eexists; eexists;
    exists {| Grant.actions := Grant.Pull;
              Grant.resource := Repository.repositoryArn r;
              Grant.grantee := SourceContext.handlerRole context |};
    exists {| Grant.actions := Grant.PullPush;
              Grant.resource := Repository.repositoryArn repository;
              Grant.grantee := role |};
    (split; [split; reflexivity|]); (split; [split; reflexivity|]);
    (split; [reflexivity|]); (split; [reflexivity|]);
    (split; [reflexivity|]); (split; [reflexivity|]); split; apply A.
Qed.

Lemma source_and_destination_bind_commute_witness :
  exists scfg dcfg p pp,
    (Grant.actions p = Grant.Pull
     /\ Grant.grantee p = SourceContext.handlerRole Sample.context)
    /\ (Grant.actions pp = Grant.PullPush /\ Grant.grantee pp = Sample.role)
    /\ Source.bind (Sample.packaging "app:v1") (Source.ecr Sample.repo "v1")
         Sample.scope Sample.context Sample.world0
       = (inr scfg, addGrant p Sample.world0)
    /\ Destination.bind (Destination.EcrDestination Sample.repo None) Sample.role
         (addGrant p Sample.world0)
       = (inr dcfg, addGrant pp (addGrant p Sample.world0))
    /\ Destination.bind (Destination.EcrDestination Sample.repo None) Sample.role
         Sample.world0
       = (inr dcfg, addGrant pp Sample.world0)
    /\ Source.bind (Sample.packaging "app:v1") (Source.ecr Sample.repo "v1")
         Sample.scope Sample.context (addGrant pp Sample.world0)
       = (inr scfg, addGrant p (addGrant pp Sample.world0))
    /\ grants (addGrant pp (addGrant p Sample.world0))
       = (grants Sample.world0 ++ [p; pp])%list
    /\ grants (addGrant p (addGrant pp Sample.world0))
       = (grants Sample.world0 ++ [pp; p])%list.
Proof.
  apply (source_and_destination_bind_commute (Sample.packaging "app:v1")
           (Source.ecr Sample.repo "v1") Sample.scope Sample.context
           (Destination.EcrDestination Sample.repo None) Sample.role Sample.world0).
  intros path; discriminate.
Defined.

(** ** More on the tag validator *)

Module TagShape.

(** The tags the validator lets through. *)
Lemma accepted (t : string) :
  validateTag t = inr tt <->
  String.length t <= 128 /\
  exists c rest,
    t = String c rest /\ c <> "-"%char /\ c <> "."%char /\
    rest <> "" /\ Str.all isTagChar rest = true.
Proof.
  rewrite TagFacts.validateTag_ok, RegExpFacts.test_Matches,
    TagFacts.tagPattern_Matches. tauto.
Qed.

Lemma accepted_length (t : string) :
  validateTag t = inr tt -> 2 <= String.length t <= 128.
Proof.
  intros H. apply accepted in H as (L & c & rest & -> & _ & _ & N & _).
  split; [|exact L]. destruct rest; [congruence | simpl; lia].
Qed.

Lemma bad_start_fails_test (c : ascii) (rest : string) :
  c = "-"%char \/ c = "."%char -> RegExp.test tagPattern (String c rest) = false.
Proof.
  intros H. destruct (RegExp.test tagPattern (String c rest)) eqn:T; [|reflexivity].
  apply RegExpFacts.test_Matches, TagFacts.tagPattern_Matches in T
    as (c' & rest' & E & N1 & N2 & _).
  injection E as <- _. destruct H; congruence.
Qed.

End TagShape.

(** X7. A destination that [Destination.ecr] has built never binds to an
    invalid tag: a [destinationTag] in its configuration is the tag option it
    was built with, passes the validator, and so has from 2 to 128
    characters. *)
Theorem bound_destinationTag_is_valid :
  forall repository options w0 d w0' role w cfg w' tag,
    Destination.ecr repository options w0 = (inr d, w0') ->
    Destination.bind d role w = (inr cfg, w') ->
    DestinationConfig.destinationTag cfg = Some tag ->
    optionsTag options = Some tag
    /\ validateTag tag = inr tt
    /\ 2 <= String.length tag <= 128.
Proof.
  intros repository options w0 d w0' role w cfg w' tag C B T.
  unfold Destination.ecr, andThen, liftResult, ret in C.
  destruct (optionsTag options) as [tag0|] eqn:O.
  - destruct (validateTag tag0) as [e | []] eqn:V; [discriminate|].
    injection C as <- _.
    unfold Destination.bind, andThen, ret in B; simpl in B.
    injection B as <- _. simpl in T. rewrite O in T. injection T as ->.
    split; [reflexivity|]. split; [exact V|].
    apply TagShape.accepted_length; exact V.
  - injection C as <- _.
    unfold Destination.bind, andThen, ret in B; simpl in B.
    injection B as <- _. simpl in T. discriminate.
Qed.

Lemma bound_destinationTag_is_valid_witness :
  optionsTag (Some {| EcrSourceOptions.tag := Some "v1" |}) = Some "v1"
  /\ validateTag "v1" = inr tt
  /\ 2 <= String.length "v1" <= 128.
Proof.
  apply (bound_destinationTag_is_valid Sample.repo
           (Some {| EcrSourceOptions.tag := Some "v1" |}) Sample.world0
           (Destination.EcrDestination Sample.repo
              (Some {| EcrSourceOptions.tag := Some "v1" |}))
           Sample.world0 Sample.role Sample.world0
           {| DestinationConfig.destinationUri := Repository.repositoryUri Sample.repo;
              DestinationConfig.loginConfig := buildLogin "123456789012" "us-east-1";
              DestinationConfig.destinationTag := Some "v1" |}
           (addGrant Sample.pullPushGrant Sample.world0));
    reflexivity.
Defined.

(** X8. A tag that begins with ['-'] or ['.'] is always rejected: with the
    character-rule error when it has at most 128 characters, with the length
    error when it has more. *)
Theorem tag_with_bad_start_is_rejected :
  forall c rest,
    c = "-"%char \/ c = "."%char ->
    validateTag (String c rest)
    = inl (Error (if Nat.ltb 128 (String.length (String c rest))
                  then tooLongMessage (String c rest)
                  else invalidCharactersMessage (String c rest))).
Proof.
  intros c rest H. unfold validateTag.
  rewrite (TagShape.bad_start_fails_test c rest H).
  destruct (Nat.ltb 128 (String.length (String c rest))); reflexivity.
Qed.

Lemma tag_with_bad_start_is_rejected_witness :
  validateTag "-rc1" = inl (Error (invalidCharactersMessage "-rc1")).
Proof.
  exact (tag_with_bad_start_is_rejected "-" "rc1" (or_introl eq_refl)).
Defined.

(** X9. An accepted tag stays accepted when characters of the tag alphabet
    are appended to it, as long as it keeps within 128 characters. *)
Theorem accepted_tag_extends :
  forall t u,
    validateTag t = inr tt ->
    Str.all isTagChar u = true ->
    String.length (t ++ u) <= 128 ->
    validateTag (t ++ u) = inr tt.
Proof.
  intros t u V A L.
  apply TagShape.accepted in V as (_ & c & rest & -> & N1 & N2 & N & R).
  apply TagShape.accepted. split; [exact L|].
  exists c, (rest ++ u). simpl. repeat split; auto.
  - destruct rest; [congruence | discriminate].
  - rewrite PieceFacts.all_app, R, A. reflexivity.
Qed.

Lemma accepted_tag_extends_witness : validateTag ("v1" ++ ".2-rc_3") = inr tt.
Proof.
  apply (accepted_tag_extends "v1" ".2-rc_3"); [reflexivity | reflexivity |].
  simpl; lia.
Defined.

(** X10. Cutting an accepted tag short, down to two characters or more,
    leaves an accepted tag. *)
Theorem accepted_tag_prefix :
  forall p u,
    validateTag (p ++ u) = inr tt ->
    2 <= String.length p ->
    validateTag p = inr tt.
Proof.
  intros p u V L.
  apply TagShape.accepted in V as (B & c & rest & E & N1 & N2 & _ & R).
  destruct p as [|c0 p']; [simpl in L; lia|].
  simpl in E. injection E as -> <-.
  apply TagShape.accepted. split.
  - rewrite PieceFacts.length_app in B. lia.
  - exists c, p'. rewrite PieceFacts.all_app in R.
    apply andb_true_iff in R as [R _].
    repeat split; auto. destruct p'; [simpl in L; lia | discriminate].
Qed.

Lemma accepted_tag_prefix_witness : validateTag "v1" = inr tt.
Proof.
  apply (accepted_tag_prefix "v1" ".2-rc_3"); [reflexivity | simpl; lia].
Defined.

(** ** The login configuration tells the registry *)

Module LoginFacts.

(** The builder is one-to-one. *)
Lemma buildLogin_inj (a r a' r' : string) :
  buildLogin a r = buildLogin a' r' -> a = a' /\ r = r'.
Proof.
  intros H.
  pose proof (f_equal LoginConfig.region H) as Hr.
  pose proof (f_equal LoginConfig.loginCommand H) as Hc.
  cbv [buildLogin LoginConfig.region] in Hr. injection Hr as <-.
  split; [|reflexivity].
  cbv [buildLogin LoginConfig.loginCommand] in Hc.
  apply PieceFacts.app_cancel_l, PieceFacts.app_cancel_l,
    PieceFacts.app_cancel_l, PieceFacts.app_cancel_r in Hc.
  exact Hc.
Qed.

End LoginFacts.

(** X11. The login configuration of a bind tells the account and the region
    it was resolved for: two binds (of sources, of destinations, or one of
    each) that return equal login configurations resolved the same account
    and the same region. *)
Theorem login_config_determines_account_and_region :
  (forall newAsset1 newAsset2 src1 src2 scope1 scope2 context1 context2
          w1 w2 cfg1 cfg2 w1' w2',
      Source.bind newAsset1 src1 scope1 context1 w1 = (inr cfg1, w1') ->
      Source.bind newAsset2 src2 scope2 context2 w2 = (inr cfg2, w2') ->
      SourceConfig.loginConfig cfg1 = SourceConfig.loginConfig cfg2 ->
      Source.account src1 scope1 = Source.account src2 scope2
      /\ Source.region src1 scope1 = Source.region src2 scope2)
  /\ (forall dst1 dst2 role1 role2 w1 w2 cfg1 cfg2 w1' w2',
         Destination.bind dst1 role1 w1 = (inr cfg1, w1') ->
         Destination.bind dst2 role2 w2 = (inr cfg2, w2') ->
         DestinationConfig.loginConfig cfg1 = DestinationConfig.loginConfig cfg2 ->
         Destination.account dst1 = Destination.account dst2
         /\ Destination.region dst1 = Destination.region dst2)
  /\ (forall newAsset src scope context dst role w1 w2 cfg1 cfg2 w1' w2',
         Source.bind newAsset src scope context w1 = (inr cfg1, w1') ->
         Destination.bind dst role w2 = (inr cfg2, w2') ->
         SourceConfig.loginConfig cfg1 = DestinationConfig.loginConfig cfg2 ->
         Source.account src scope = Destination.account dst
         /\ Source.region src scope = Destination.region dst).
Proof.
  split; [|split].
  - intros until w2'. intros B1 B2 E.
    rewrite (BindFacts.source_loginConfig _ _ _ _ _ _ _ B1) in E.
    rewrite (BindFacts.source_loginConfig _ _ _ _ _ _ _ B2) in E.
    exact (LoginFacts.buildLogin_inj _ _ _ _ E).
  - intros until w2'. intros B1 B2 E.
    rewrite (BindFacts.destination_loginConfig _ _ _ _ _ B1) in E.
    rewrite (BindFacts.destination_loginConfig _ _ _ _ _ B2) in E.
    exact (LoginFacts.buildLogin_inj _ _ _ _ E).
  - intros until w2'. intros B1 B2 E.
    rewrite (BindFacts.source_loginConfig _ _ _ _ _ _ _ B1) in E.
    rewrite (BindFacts.destination_loginConfig _ _ _ _ _ B2) in E.
    exact (LoginFacts.buildLogin_inj _ _ _ _ E).
Qed.

Lemma login_config_determines_account_and_region_witness :
  Source.account (Source.asset (Sample.assetAt "app:v1")) Sample.scope
  = Destination.account (Destination.EcrDestination Sample.repo None)
  /\ Source.region (Source.asset (Sample.assetAt "app:v1")) Sample.scope
     = Destination.region (Destination.EcrDestination Sample.repo None).
Proof.
  apply (proj2 (proj2 login_config_determines_account_and_region)
           (Sample.packaging "app:v1") (Source.asset (Sample.assetAt "app:v1"))
           Sample.scope Sample.context
           (Destination.EcrDestination Sample.repo None) Sample.role
           Sample.world0 Sample.world0
           {| SourceConfig.imageUri :=
               Repository.repositoryUriForTag Sample.repo (Some "v1");
              SourceConfig.imageTag := Some "v1";
              SourceConfig.loginConfig := buildLogin "123456789012" "us-east-1" |}
           {| DestinationConfig.destinationUri := Repository.repositoryUri Sample.repo;
              DestinationConfig.loginConfig := buildLogin "123456789012" "us-east-1";
              DestinationConfig.destinationTag := None |}
           (addGrant Sample.pullGrant Sample.world0)
           (addGrant Sample.pullPushGrant Sample.world0));
    reflexivity.
Defined.

(** ** Image URIs *)





(** * Properties at synthesis time *)

(** ** Markers and pieces *)

Module MarkerFacts.
Import RegExp RegExpFacts.

Lemma app_assoc_str (a b c : string) : (a ++ b) ++ c = a ++ b ++ c.
Proof. induction a; simpl; [|rewrite IHa]; reflexivity. Qed.

Lemma Matches_anyStar (s : string) : Matches (Star Synth.Token.anyChar) s.
Proof.
  induction s as [|c s IH]; [constructor|].
  change (String c s) with (String c "" ++ s).
  constructor; [constructor; reflexivity | exact IH].
Qed.

Lemma Matches_lit (s : string) : Matches (Synth.Token.lit s) s.
Proof.
  induction s as [|c s IH]; simpl; [constructor|].
  change (String c s) with (String c "" ++ s).
  constructor; [|exact IH].
  constructor. unfold classHas; simpl. rewrite Ascii.eqb_refl. reflexivity.
Qed.

Lemma Matches_Plus_Class (atoms : list ClassAtom) (c : ascii) (s : string) :
  Str.all (classHas false atoms) (String c s) = true ->
  Matches (Plus (Class false atoms)) (String c s).
Proof.
  simpl. intros H. apply andb_true_iff in H as [Hc Hs].
  change (String c s) with (String c "" ++ s).
  constructor; [constructor; exact Hc | apply Matches_Star_Class; exact Hs].
Qed.

(** [search] finds [r] exactly when some part of the string matches it. *)
Lemma search_spec (r : RegExp.t) (s : string) :
  Synth.Token.search r s = true <->
  exists a m b, s = a ++ m ++ b /\ Matches r m.
Proof.
  unfold Synth.Token.search. rewrite test_Matches. split.
  - intros H. inversion H as [| |? ? a mb Ha Hmb| | | |]; subst.
    inversion Hmb as [| |? ? m b Hm Hb| | | |]; subst. eauto.
  - intros (a & m & b & -> & Hm).
    constructor; [apply Matches_anyStar|].
    constructor; [exact Hm | apply Matches_anyStar].
Qed.

(** What is found in a part is found in the whole. *)
Lemma search_part (r : RegExp.t) (a p b : string) :
  Synth.Token.search r (a ++ p ++ b) = false -> Synth.Token.search r p = false.
Proof.
  intros H. destruct (Synth.Token.search r p) eqn:E; [|reflexivity].
  apply search_spec in E as (x & m & y & -> & Hm).
  assert (T : Synth.Token.search r (a ++ (x ++ m ++ y) ++ b) = true).
  { apply search_spec. exists (a ++ x), m, (y ++ b). split; [|exact Hm].
    rewrite !app_assoc_str. reflexivity. }
  congruence.
Qed.

(** The first piece is the beginning of the string. *)
Lemma split_first (sep : ascii) (s : string) :
  exists q qs b, Str.split sep s = q :: qs /\ s = q ++ b.
Proof.
  induction s as [|c s (q & qs & b & E & ->)]; simpl.
  - exists "", [], "". auto.
  - destruct (Ascii.eqb c sep).
    + exists "", (Str.split sep (q ++ b)), (String c (q ++ b)). auto.
    + rewrite E. exists (String c q), qs, b. auto.
Qed.

(** Every piece is a part of the string. *)
Lemma piece_is_part (sep : ascii) (s p : string) :
  In p (Str.split sep s) -> exists a b, s = a ++ p ++ b.
Proof.
  revert p. induction s as [|c s IH]; simpl; intros p H.
  - destruct H as [<- | []]. exists "", "". reflexivity.
  - destruct (Ascii.eqb c sep).
    + destruct H as [<- | H].
      * exists "", (String c s). reflexivity.
      * destruct (IH p H) as (a & b & ->). exists (String c a), b. reflexivity.
    + destruct (split_first sep s) as (q & qs & b & E & Es).
      rewrite E in H, IH. destruct H as [<- | H].
      * exists "", b. simpl. rewrite Es. reflexivity.
      * destruct (IH p (or_intror H)) as (a & b' & ->).
        exists (String c a), b'. reflexivity.
Qed.

(** The decimal digits are key characters. *)
Lemma digits_are_key (n : nat) :
  Str.all (classHas false Synth.Token.keyClass) (Str.ofNat n) = true.
Proof.
  unfold Str.ofNat.
  assert (A : forall d, Str.all (classHas false Synth.Token.keyClass)
                          (NilEmpty.string_of_uint d) = true).
  { induction d; simpl; try rewrite IHd; reflexivity. }
  destruct (Nat.to_uint n); try apply A. reflexivity.
Qed.

(** A registered key between its delimiters is a marker. *)
Lemma marker_found (begin : string) (n : nat) :
  Synth.Token.search (Synth.Token.marker begin)
    (begin ++ ("TOKEN." ++ Str.ofNat n) ++ "]}") = true.
Proof.
  apply search_spec.
  exists "", (begin ++ ("TOKEN." ++ Str.ofNat n) ++ "]}"), "".
  split; [simpl; rewrite PieceFacts.append_empty_r; reflexivity|].
  unfold Synth.Token.marker.
  constructor; [apply Matches_lit|].
  constructor; [|apply (Matches_lit "]}")].
  assert (K : Str.all (classHas false Synth.Token.keyClass)
                ("TOKEN." ++ Str.ofNat n) = true).
  { rewrite PieceFacts.all_app, digits_are_key. reflexivity. }
  apply (Matches_Plus_Class _ "T" ("OKEN." ++ Str.ofNat n)). exact K.
Qed.

(** The pieces of a plain string are plain: neither the list of pieces nor
    a piece is a token. *)
Lemma plain_pieces (sep : ascii) (s : string) :
  Synth.Token.plain s = true ->
  Synth.Token.isUnresolvedList (Str.split sep s) = false
  /\ existsb Synth.Token.isUnresolved (Str.split sep s) = false.
Proof.
  unfold Synth.Token.plain. intros H.
  apply andb_true_iff in H as [H1 H2]. apply negb_true_iff in H1, H2.
  assert (P : forall p, In p (Str.split sep s) ->
                        Synth.Token.isUnresolved p = false
                        /\ Synth.Token.search (Synth.Token.marker "#{Token[") p
                           = false).
  { intros p Hp. destruct (piece_is_part sep s p Hp) as (a & b & E).
    rewrite E in H1, H2. split; eapply search_part; eassumption. }
  split.
  - destruct (Str.split sep s) as [|x [|y l]]; try reflexivity.
    apply (P x). left; reflexivity.
  - destruct (existsb Synth.Token.isUnresolved (Str.split sep s)) eqn:E;
      [|reflexivity].
    apply existsb_exists in E as (p & Hp & T).
    rewrite (proj1 (P p Hp)) in T. discriminate.
Qed.

End MarkerFacts.

(** ** What the synthesis-time code computes *)

Module SynthFacts.

(** On a plain URI the expression gives the second piece, if there is one,
    and registers nothing. *)
Lemma extract_plain (uri : string) (st : Synth.State) :
  Synth.Token.plain uri = true ->
  Synth.extractTag uri st = (inr (Fn.select 1 (Fn.split ":" uri)), st).
Proof.
  intros P. destruct (MarkerFacts.plain_pieces ":" uri P) as [L E].
  unfold Synth.Token.plain in P. apply andb_true_iff in P as [U _].
  unfold Synth.extractTag, Synth.next, Synth.Fn.split, Synth.Fn.select.
  rewrite U. unfold Synth.pure. rewrite L, E. reflexivity.
Qed.

(** On a URI that holds a token the expression registers two tokens, one
    for the split and one for the selection, and gives the second. *)
Lemma extract_token (uri : string) (st : Synth.State) :
  Synth.Token.isUnresolved uri = true ->
  Synth.extractTag uri st
  = (inr (Some ("${Token["
                  ++ ("TOKEN."
                        ++ Str.ofNat
                             (S (Synth.TokenMap.tokenCounter (Synth.tokens st))))
                  ++ "]}")),
     {| Synth.world := Synth.world st;
        Synth.tokens :=
          {| Synth.TokenMap.tokenCounter :=
              S (S (Synth.TokenMap.tokenCounter (Synth.tokens st)));
             Synth.TokenMap.stringTokenMap :=
               ("TOKEN."
                  ++ Str.ofNat (S (Synth.TokenMap.tokenCounter (Synth.tokens st))),
                Synth.FnSelect 1
                  ["#{Token["
                     ++ ("TOKEN."
                           ++ Str.ofNat
                                (Synth.TokenMap.tokenCounter (Synth.tokens st)))
                     ++ "]}"])
               :: ("TOKEN."
                     ++ Str.ofNat (Synth.TokenMap.tokenCounter (Synth.tokens st)),
                   Synth.FnSplit ":" uri)
               :: Synth.TokenMap.stringTokenMap (Synth.tokens st) |} |}).
Proof.
  intros U. unfold Synth.extractTag, Synth.next, Synth.Fn.split. rewrite U.
  cbn [negb Synth.onTokens Synth.TokenMap.registerList
       Synth.TokenMap.registerStringKey
       Synth.world Synth.tokens Synth.TokenMap.tokenCounter
       Synth.TokenMap.stringTokenMap].
  unfold Synth.Fn.select, Synth.Token.isUnresolvedList.
  rewrite (MarkerFacts.marker_found "#{Token["
             (Synth.TokenMap.tokenCounter (Synth.tokens st))).
  reflexivity.
Qed.

(** The expression never throws and leaves the grants alone. *)
Lemma extract_returns (uri : string) (st : Synth.State) :
  exists tag st',
    Synth.extractTag uri st = (inr tag, st') /\ Synth.world st' = Synth.world st.
Proof.
  unfold Synth.extractTag, Synth.next, Synth.Fn.split.
  destruct (negb (Synth.Token.isUnresolved uri)).
  - unfold Synth.pure, Synth.Fn.select.
    destruct (negb (Synth.Token.isUnresolvedList (Str.split ":" uri))
              && negb (existsb Synth.Token.isUnresolved (Str.split ":" uri)));
      eexists; eexists; split; reflexivity.
  - cbn [Synth.onTokens Synth.TokenMap.registerList
         Synth.TokenMap.registerStringKey].
    unfold Synth.Fn.select.
    match goal with
    | |- context [if ?b then _ else _] => destruct b
    end; eexists; eexists; split; reflexivity.
Qed.

(** [Source.asset] runs the expression and keeps its outcome. *)
Lemma asset_run (a : DockerImageAsset.t) (st : Synth.State) :
  Synth.Source.asset a st
  = match Synth.extractTag (DockerImageAsset.imageUri a) st with
    | (inl e, st') => (inl e, st')
    | (inr tag, st') =>
        (inr (Source.AssetSource (DockerImageAsset.repository a) tag), st')
    end.
Proof.
  unfold Synth.Source.asset, Synth.extractTag, Synth.next.
  destruct (Synth.Fn.split ":" (DockerImageAsset.imageUri a) st) as [[e | pieces] st1];
    [reflexivity|].
  destruct (Synth.Fn.select 1 pieces st1) as [[e | tag] st2]; reflexivity.
Qed.

(** Binding an Asset source: [Stack.of] first, then the grant. *)
Lemma bind_asset newAsset repository tag scope context st :
  Synth.Source.bind newAsset (Source.AssetSource repository tag) scope context st
  = match Synth.Construct.enclosingStack scope with
    | inl e => (inl e, st)
    | inr stack =>
        (inr {| SourceConfig.imageUri :=
                  Repository.repositoryUriForTag repository tag;
                SourceConfig.imageTag := tag;
                SourceConfig.loginConfig :=
                  buildLogin (Stack.account stack) (Stack.region stack) |},
         Synth.withGrant (Synth.pull repository context) st)
    end.
Proof.
  unfold Synth.Source.bind, Synth.next, Synth.Stack_of, Synth.fromResult.
  destruct (Synth.Construct.enclosingStack scope) as [e | stack]; reflexivity.
Qed.

(** Binding a Registry-reference source. *)
Lemma bind_ecr newAsset repository tag scope context st :
  Synth.Source.bind newAsset (Source.EcrSource repository tag) scope context st
  = (inr {| SourceConfig.imageUri :=
              Repository.repositoryUriForTag repository (Some tag);
            SourceConfig.imageTag := Some tag;
            SourceConfig.loginConfig :=
              buildLogin (Env.account (Repository.env repository))
                (Env.region (Repository.env repository)) |},
     Synth.withGrant (Synth.pull repository context) st).
Proof. reflexivity. Qed.

(** Binding a Directory source: [Stack.of] first, then packaging, the grant
    and the expression on the asset's URI. *)
Lemma bind_directory newAsset path scope context st :
  Synth.Source.bind newAsset (Source.DirectorySource path) scope context st
  = match Synth.Construct.enclosingStack scope with
    | inl e => (inl e, st)
    | inr stack =>
        match newAsset scope "asset" {| DockerImageAsset.directory := path |} st with
        | (inl e, st1) => (inl e, st1)
        | (inr asset, st1) =>
            match Synth.extractTag (DockerImageAsset.imageUri asset)
                    (Synth.withGrant
                       (Synth.pull (DockerImageAsset.repository asset) context) st1)
            with
            | (inl e, st2) => (inl e, st2)
            | (inr tag, st2) =>
                (inr {| SourceConfig.imageUri := DockerImageAsset.imageUri asset;
                        SourceConfig.imageTag := tag;
                        SourceConfig.loginConfig :=
                          buildLogin (Stack.account stack) (Stack.region stack) |},
                 st2)
            end
        end
    end.
Proof.
  unfold Synth.Source.bind, Synth.next, Synth.Stack_of, Synth.fromResult.
  destruct (Synth.Construct.enclosingStack scope) as [e | stack]; [reflexivity|].
  cbn [Synth.pure].
  destruct (newAsset scope "asset" _ st) as [[e | asset] st1]; [reflexivity|].
  unfold Synth.extractTag, Synth.next.
  change (Synth.onWorld
            (Repository.grantPull (DockerImageAsset.repository asset)
               (SourceContext.handlerRole context)) st1)
    with (@inr exn unit tt,
          Synth.withGrant (Synth.pull (DockerImageAsset.repository asset) context) st1).
  cbn iota beta.
  destruct (Synth.Fn.split ":" (DockerImageAsset.imageUri asset) _)
    as [[e | pieces] st2]; [reflexivity|].
  destruct (Synth.Fn.select 1 pieces st2) as [[e | tag] st3]; reflexivity.
Qed.

(** What the expression gives, by the kind of URI. *)
Lemma extract_cases (uri : string) (st : Synth.State) tag st' :
  Synth.extractTag uri st = (inr tag, st') ->
  (Synth.Token.plain uri = true ->
   tag = Fn.select 1 (Fn.split ":" uri) /\ st' = st)
  /\ (Synth.Token.isUnresolved uri = true -> Synth.standsForSelect tag uri st').
Proof.
  intros E. split.
  - intros P. rewrite (extract_plain uri st P) in E. injection E as <- <-. auto.
  - intros U. pose proof (extract_token uri st U) as T. rewrite E in T.
    exists ("TOKEN." ++ Str.ofNat (S (Synth.TokenMap.tokenCounter (Synth.tokens st)))),
      ("TOKEN." ++ Str.ofNat (Synth.TokenMap.tokenCounter (Synth.tokens st))).
    split; [congruence|].
    assert (Es : st' = snd (Synth.extractTag uri st)) by (rewrite E; reflexivity).
    rewrite Es, (extract_token uri st U).
    cbn [snd Synth.tokens Synth.TokenMap.stringTokenMap]. split.
    + left; reflexivity.
    + right; left; reflexivity.
Qed.

(** The way of an Asset source from construction to a configuration. *)
Lemma asset_route newAsset (a : DockerImageAsset.t) scope context st stack :
  Synth.Construct.enclosingStack scope = inr stack ->
  exists tag st1,
    Synth.extractTag (DockerImageAsset.imageUri a) st = (inr tag, st1)
    /\ Synth.world st1 = Synth.world st
    /\ Synth.Source.asset a st
       = (inr (Source.AssetSource (DockerImageAsset.repository a) tag), st1)
    /\ Synth.Source.bind newAsset
         (Source.AssetSource (DockerImageAsset.repository a) tag) scope context st1
       = (inr {| SourceConfig.imageUri :=
                   Repository.repositoryUriForTag (DockerImageAsset.repository a) tag;
                 SourceConfig.imageTag := tag;
                 SourceConfig.loginConfig :=
                   buildLogin (Stack.account stack) (Stack.region stack) |},
          Synth.withGrant (Synth.pull (DockerImageAsset.repository a) context) st1).
Proof.
  intros H.
  destruct (extract_returns (DockerImageAsset.imageUri a) st) as (tag & st1 & E & W).
  exists tag, st1. rewrite asset_run, E, bind_asset, H. auto.
Qed.

(** The way of a Directory source once packaging has returned. *)
Lemma directory_route newAsset path scope context st stack asset st1 :
  Synth.Construct.enclosingStack scope = inr stack ->
  newAsset scope "asset" {| DockerImageAsset.directory := path |} st
  = (inr asset, st1) ->
  exists tag st2,
    Synth.extractTag (DockerImageAsset.imageUri asset)
      (Synth.withGrant (Synth.pull (DockerImageAsset.repository asset) context) st1)
    = (inr tag, st2)
    /\ Synth.world st2
       = addGrant (Synth.pull (DockerImageAsset.repository asset) context)
           (Synth.world st1)
    /\ Synth.Source.bind newAsset (Source.DirectorySource path) scope context st
       = (inr {| SourceConfig.imageUri := DockerImageAsset.imageUri asset;
                 SourceConfig.imageTag := tag;
                 SourceConfig.loginConfig :=
                   buildLogin (Stack.account stack) (Stack.region stack) |},
          st2).
Proof.
  intros H P.
  destruct (extract_returns (DockerImageAsset.imageUri asset)
              (Synth.withGrant
                 (Synth.pull (DockerImageAsset.repository asset) context) st1))
    as (tag & st2 & E & W).
  exists tag, st2. rewrite bind_directory, H, P, E. auto.
Qed.

(** Without tokens and inside a stack the synthesis-time code does what the
    plain embedding does. *)
Lemma agrees_asset (a : DockerImageAsset.t) (st : Synth.State) :
  Synth.Token.plain (DockerImageAsset.imageUri a) = true ->
  Synth.Source.asset a st = (inr (Source.asset a), st).
Proof.
  intros P. rewrite asset_run, (extract_plain _ _ P). reflexivity.
Qed.

Lemma agrees_bind newAssetS newAsset src scope context st :
  (forall path, src <> Source.DirectorySource path) ->
  Synth.Source.bind newAssetS src
    (Synth.inStack (Construct.path scope) (Construct.stack scope)) context st
  = Synth.onWorld (Source.bind newAsset src scope context) st.
Proof.
  intros N. destruct src as [path | repository tag | repository tag].
  - exfalso. exact (N path eq_refl).
  - reflexivity.
  - rewrite bind_asset. reflexivity.
Qed.

Lemma agrees_directory newAsset path scope context st asset w1 :
  newAsset scope "asset" {| DockerImageAsset.directory := path |} (Synth.world st)
  = (inr asset, w1) ->
  Synth.Token.plain (DockerImageAsset.imageUri asset) = true ->
  Synth.Source.bind (fun _ id props => Synth.onWorld (newAsset scope id props))
    (Source.DirectorySource path)
    (Synth.inStack (Construct.path scope) (Construct.stack scope)) context st
  = Synth.onWorld (Source.bind newAsset (Source.DirectorySource path) scope context)
      st.
Proof.
  intros E P. rewrite bind_directory.
  cbn [Synth.inStack Synth.Construct.enclosingStack].
  unfold Synth.onWorld at 1. rewrite E.
  rewrite (extract_plain _ _ P).
  unfold Synth.onWorld, Source.bind, andThen. rewrite E. reflexivity.
Qed.

End SynthFacts.

(** ** The login configuration is produced *)

(** C5. The login builder gives the command of the fixed shape, the type
    [ECR] and the region it was given.  Every bind produces it: a
    Registry-reference source and a destination always, an Asset source
    whenever its scope is in a stack, a Directory source whenever its scope
    is in a stack and packaging returns; and whichever bind returns, its
    login configuration is the builder's value at the account and region the
    variant resolves.  So two binds that resolve the same account and region
    give the same login configuration, byte for byte, whatever the variant,
    the role, the packaging service, the grants and the tokens before. *)
Theorem login_config_is_produced_and_deterministic :
  (forall a r,
      buildLogin a r
      = {| LoginConfig.loginCommand :=
            "aws ecr get-login-password --region " ++ r
              ++ " | docker login --username AWS --password-stdin "
              ++ a ++ ".dkr.ecr." ++ r ++ ".amazonaws.com";
           LoginConfig.loginType := ECR;
           LoginConfig.region := Some r |})
  /\ (forall newAsset repository tag scope context st,
         exists cfg st',
           Synth.Source.bind newAsset (Synth.Source.ecr repository tag)
             scope context st = (inr cfg, st')
           /\ SourceConfig.loginConfig cfg
              = buildLogin (Env.account (Repository.env repository))
                  (Env.region (Repository.env repository)))
  /\ (forall repository options role w,
         exists cfg w',
           Destination.bind (Destination.EcrDestination repository options) role w
           = (inr cfg, w')
           /\ DestinationConfig.loginConfig cfg
              = buildLogin (Env.account (Repository.env repository))
                  (Env.region (Repository.env repository)))
  /\ (forall newAsset repository tag scope context st stack,
         Synth.Construct.enclosingStack scope = inr stack ->
         exists cfg st',
           Synth.Source.bind newAsset (Source.AssetSource repository tag)
             scope context st = (inr cfg, st')
           /\ SourceConfig.loginConfig cfg
              = buildLogin (Stack.account stack) (Stack.region stack))
  /\ (forall newAsset path scope context st stack asset st1,
         Synth.Construct.enclosingStack scope = inr stack ->
         newAsset scope "asset" {| DockerImageAsset.directory := path |} st
         = (inr asset, st1) ->
         exists cfg st',
           Synth.Source.bind newAsset (Synth.Source.directory path)
             scope context st = (inr cfg, st')
           /\ SourceConfig.loginConfig cfg
              = buildLogin (Stack.account stack) (Stack.region stack))
  /\ (forall newAsset src scope context st cfg st',
         Synth.Source.bind newAsset src scope context st = (inr cfg, st') ->
         exists a r,
           Synth.Source.resolved src scope = Some (a, r)
           /\ SourceConfig.loginConfig cfg = buildLogin a r)
  /\ (forall newAsset1 newAsset2 src1 src2 scope1 scope2 context1 context2
             st1 st2 cfg1 cfg2 st1' st2',
         Synth.Source.bind newAsset1 src1 scope1 context1 st1 = (inr cfg1, st1') ->
         Synth.Source.bind newAsset2 src2 scope2 context2 st2 = (inr cfg2, st2') ->
         Synth.Source.resolved src1 scope1 = Synth.Source.resolved src2 scope2 ->
         SourceConfig.loginConfig cfg1 = SourceConfig.loginConfig cfg2)
  /\ (forall newAsset src scope context dst role st w cfg1 cfg2 st' w',
         Synth.Source.bind newAsset src scope context st = (inr cfg1, st') ->
         Destination.bind dst role w = (inr cfg2, w') ->
         Synth.Source.resolved src scope
         = Some (Destination.account dst, Destination.region dst) ->
         SourceConfig.loginConfig cfg1 = DestinationConfig.loginConfig cfg2).
Proof.
  assert (R : forall newAsset src scope context st cfg st',
             Synth.Source.bind newAsset src scope context st = (inr cfg, st') ->
             exists a r,
               Synth.Source.resolved src scope = Some (a, r)
               /\ SourceConfig.loginConfig cfg = buildLogin a r).
  { intros newAsset [path | repository tag | repository tag] scope context st cfg st'.
    - rewrite SynthFacts.bind_directory. unfold Synth.Source.resolved.
      destruct (Synth.Construct.enclosingStack scope) as [e | stack]; [discriminate|].
      destruct (newAsset scope "asset" _ st) as [[e | asset] st1]; [discriminate|].
      destruct (Synth.extractTag _ _) as [[e | tag] st2]; [discriminate|].
      intros H; injection H as <- _. eexists; eexists. split; reflexivity.
    - rewrite SynthFacts.bind_ecr. intros H; injection H as <- _.
      eexists; eexists. split; reflexivity.
    - rewrite SynthFacts.bind_asset. unfold Synth.Source.resolved.
      destruct (Synth.Construct.enclosingStack scope) as [e | stack]; [discriminate|].
      intros H; injection H as <- _. eexists; eexists. split; reflexivity. }
  split; [reflexivity|].
  split.
  { intros. unfold Synth.Source.ecr. rewrite SynthFacts.bind_ecr.
    eexists; eexists. split; reflexivity. }
  split.
  { intros. eexists; eexists. split; reflexivity. }
  split.
  { intros newAsset repository tag scope context st stack H.
    rewrite SynthFacts.bind_asset, H. eexists; eexists. split; reflexivity. }
  split.
  { intros newAsset path scope context st stack asset st1 H P.
    destruct (SynthFacts.directory_route newAsset path scope context st stack
                asset st1 H P) as (tag & st2 & _ & _ & B).
    unfold Synth.Source.directory. rewrite B.
    eexists; eexists. split; reflexivity. }
  split; [exact R|].
  split.
  - intros until st2'. intros B1 B2 E.
    destruct (R _ _ _ _ _ _ _ B1) as (a1 & r1 & R1 & ->).
    destruct (R _ _ _ _ _ _ _ B2) as (a2 & r2 & R2 & ->).
    congruence.
  - intros until w'. intros B1 B2 E.
    destruct (R _ _ _ _ _ _ _ B1) as (a1 & r1 & R1 & ->).
    rewrite (BindFacts.destination_loginConfig _ _ _ _ _ B2).
    congruence.
Qed.

Lemma login_config_is_produced_and_deterministic_witness :
  (exists cfg st',
      Synth.Source.bind (Sample.synthPackaging "app:v1")
        (Source.AssetSource Sample.repo (Some "v1"))
        Sample.synthScope Sample.context Sample.state0 = (inr cfg, st')
      /\ SourceConfig.loginConfig cfg = buildLogin "123456789012" "us-east-1")
  /\ (exists cfg st',
         Synth.Source.bind (Sample.synthPackaging Sample.tokenUri)
           (Synth.Source.directory "docker")
           Sample.synthScope Sample.context Sample.state0 = (inr cfg, st')
         /\ SourceConfig.loginConfig cfg = buildLogin "123456789012" "us-east-1").
Proof.
  split.
  - apply (proj1 (proj2 (proj2 (proj2 login_config_is_produced_and_deterministic)))
             (Sample.synthPackaging "app:v1") Sample.repo (Some "v1")
             Sample.synthScope Sample.context Sample.state0
             {| Stack.account := "123456789012"; Stack.region := "us-east-1" |}).
    reflexivity.
  - apply (proj1 (proj2 (proj2 (proj2 (proj2
                    login_config_is_produced_and_deterministic))))
             (Sample.synthPackaging Sample.tokenUri) "docker"
             Sample.synthScope Sample.context Sample.state0
             {| Stack.account := "123456789012"; Stack.region := "us-east-1" |}
             (Sample.assetAt Sample.tokenUri) Sample.state0);
      reflexivity.
Defined.

(** ** Degenerate image URIs *)

(** C8, as the code has it.  When the image URI has no [':'] (the empty URI
    included), the code checks nothing and throws nothing of its own: with
    the scope in a stack, an Asset source is constructed and bound, and a
    Directory source whose packaging returned is bound; the pull grant is
    issued and a configuration returned.  Its [imageTag] is undefined when
    the URI is a plain string, and a token for the selection when the URI
    holds a token. *)
Theorem bind_of_degenerate_uri_returns :
  forall newAsset uri scope context st stack,
    Str.mem ":" uri = false ->
    Synth.Construct.enclosingStack scope = inr stack ->
    (forall repository,
        exists src st1 cfg st2,
          Synth.Source.asset
            {| DockerImageAsset.repository := repository;
               DockerImageAsset.imageUri := uri |} st = (inr src, st1)
          /\ Synth.Source.bind newAsset src scope context st1 = (inr cfg, st2)
          /\ Synth.world st2
             = addGrant (Synth.pull repository context) (Synth.world st)
          /\ (Synth.Token.plain uri = true -> SourceConfig.imageTag cfg = None)
          /\ (Synth.Token.isUnresolved uri = true ->
              Synth.standsForSelect (SourceConfig.imageTag cfg) uri st2))
    /\ (forall path repository st1,
           newAsset scope "asset" {| DockerImageAsset.directory := path |} st
           = (inr {| DockerImageAsset.repository := repository;
                     DockerImageAsset.imageUri := uri |}, st1) ->
           exists cfg st2,
             Synth.Source.bind newAsset (Synth.Source.directory path)
               scope context st = (inr cfg, st2)
             /\ SourceConfig.imageUri cfg = uri
             /\ Synth.world st2
                = addGrant (Synth.pull repository context) (Synth.world st1)
             /\ (Synth.Token.plain uri = true -> SourceConfig.imageTag cfg = None)
             /\ (Synth.Token.isUnresolved uri = true ->
                 Synth.standsForSelect (SourceConfig.imageTag cfg) uri st2)).
Proof.
  intros newAsset uri scope context st stack C H. split.
  - intros repository.
    destruct (SynthFacts.asset_route newAsset
                {| DockerImageAsset.repository := repository;
                   DockerImageAsset.imageUri := uri |} scope context st stack H)
      as (tag & st1 & E & W & A & B).
    cbn [DockerImageAsset.repository DockerImageAsset.imageUri] in *.
    destruct (SynthFacts.extract_cases uri st tag st1 E) as [Pl Tk].
    eexists; eexists; eexists; eexists.
    split; [exact A|]. split; [exact B|].
    cbn [SourceConfig.imageTag Synth.withGrant Synth.world Synth.tokens].
    split; [rewrite W; reflexivity|]. split.
    + intros P. destruct (Pl P) as [-> _].
      apply ExtractFacts.select_without_colon; exact C.
    + intros U. destruct (Tk U) as (key & listKey & T1 & T2 & T3).
      exists key, listKey. auto.
  - intros path repository st1 P.
    destruct (SynthFacts.directory_route newAsset path scope context st stack
                _ st1 H P) as (tag & st2 & E & W & B).
    cbn [DockerImageAsset.repository DockerImageAsset.imageUri] in *.
    destruct (SynthFacts.extract_cases uri _ tag st2 E) as [Pl Tk].
    eexists; eexists. split; [exact B|].
    cbn [SourceConfig.imageTag SourceConfig.imageUri].
    split; [reflexivity|]. split; [exact W|]. split.
    + intros Q. destruct (Pl Q) as [-> _].
      apply ExtractFacts.select_without_colon; exact C.
    + exact Tk.
Qed.

Lemma bind_of_degenerate_uri_returns_witness :
  exists cfg st2,
    Synth.Source.bind (Sample.synthPackaging Sample.tokenUri)
      (Synth.Source.directory "docker") Sample.synthScope Sample.context
      Sample.state0 = (inr cfg, st2)
    /\ SourceConfig.imageUri cfg = Sample.tokenUri
    /\ Synth.world st2
       = addGrant (Synth.pull Sample.repo Sample.context)
           (Synth.world Sample.state0)
    /\ (Synth.Token.plain Sample.tokenUri = true -> SourceConfig.imageTag cfg = None)
    /\ (Synth.Token.isUnresolved Sample.tokenUri = true ->
        Synth.standsForSelect (SourceConfig.imageTag cfg) Sample.tokenUri st2).
Proof.
  apply (proj2 (bind_of_degenerate_uri_returns
                  (Sample.synthPackaging Sample.tokenUri) Sample.tokenUri
                  Sample.synthScope Sample.context Sample.state0
                  {| Stack.account := "123456789012"; Stack.region := "us-east-1" |}
                  eq_refl eq_refl)
           "docker" Sample.repo Sample.state0).
  reflexivity.
Defined.

(** C8 as stated fails: the URI ["repo/image"] has no [':'] and the empty
    URI is empty; an Asset source of either is constructed with an undefined
    tag and binds to a configuration, with the grant issued, instead of
    throwing.  So does one whose URI is a token. *)
Lemma degenerate_uri_binds_without_error :
  Str.mem ":" "repo/image" = false
  /\ Synth.Source.asset (Sample.assetAt "repo/image") Sample.state0
     = (inr (Source.AssetSource Sample.repo None), Sample.state0)
  /\ Synth.Source.asset (Sample.assetAt "") Sample.state0
     = (inr (Source.AssetSource Sample.repo None), Sample.state0)
  /\ Synth.Source.bind (Sample.synthPackaging "repo/image")
       (Source.AssetSource Sample.repo None)
       Sample.synthScope Sample.context Sample.state0
     = (inr {| SourceConfig.imageUri := Repository.repositoryUri Sample.repo;
               SourceConfig.imageTag := None;
               SourceConfig.loginConfig := buildLogin "123456789012" "us-east-1" |},
        Synth.withGrant Sample.pullGrant Sample.state0)
  /\ Synth.Source.bind (Sample.synthPackaging "repo/image")
       (Synth.Source.directory "docker")
       Sample.synthScope Sample.context Sample.state0
     = (inr {| SourceConfig.imageUri := "repo/image";
               SourceConfig.imageTag := None;
               SourceConfig.loginConfig := buildLogin "123456789012" "us-east-1" |},
        Synth.withGrant Sample.pullGrant Sample.state0)
  /\ fst (Synth.Source.asset (Sample.assetAt Sample.tokenUri) Sample.state0)
     = inr (Source.AssetSource Sample.repo (Some "${Token[TOKEN.8]}"))
  /\ ~ (forall uri,
           Str.mem ":" uri = false ->
           exists e st,
             Synth.next (Synth.Source.asset (Sample.assetAt uri))
               (fun src =>
                  Synth.Source.bind (Sample.synthPackaging uri) src
                    Sample.synthScope Sample.context)
               Sample.state0 = (inl e, st)).
Proof.
  split; [reflexivity|]. split; [reflexivity|]. split; [reflexivity|].
  split; [reflexivity|]. split; [reflexivity|]. split; [reflexivity|].
  intros C. destruct (C "repo/image" eq_refl) as (e & st & H).
  vm_compute in H. discriminate H.
Qed.

(** ** The extracted tag, by the kind of URI *)

(** X2. With the scope in a stack, the [imageTag] of an Asset source, and of
    a Directory source whose packaging returned, depends on the image URI as
    follows.  For a plain URI it is defined exactly when the URI contains a
    [':'], and it never contains [':'] itself.  For a URI that holds a token
    it is always defined: a token for the selection. *)
Theorem imageTag_defined_iff_colon :
  forall newAsset asset scope context st stack,
    Synth.Construct.enclosingStack scope = inr stack ->
    (exists src st1 cfg st2,
        Synth.Source.asset asset st = (inr src, st1)
        /\ Synth.Source.bind newAsset src scope context st1 = (inr cfg, st2)
        /\ (Synth.Token.plain (DockerImageAsset.imageUri asset) = true ->
            (SourceConfig.imageTag cfg = None
             <-> Str.mem ":" (DockerImageAsset.imageUri asset) = false)
            /\ (forall t, SourceConfig.imageTag cfg = Some t ->
                          Str.mem ":" t = false))
        /\ (Synth.Token.isUnresolved (DockerImageAsset.imageUri asset) = true ->
            SourceConfig.imageTag cfg <> None
            /\ Synth.standsForSelect (SourceConfig.imageTag cfg)
                 (DockerImageAsset.imageUri asset) st2))
    /\ (forall path st1,
           newAsset scope "asset" {| DockerImageAsset.directory := path |} st
           = (inr asset, st1) ->
           exists cfg st2,
             Synth.Source.bind newAsset (Synth.Source.directory path)
               scope context st = (inr cfg, st2)
             /\ (Synth.Token.plain (DockerImageAsset.imageUri asset) = true ->
                 (SourceConfig.imageTag cfg = None
                  <-> Str.mem ":" (DockerImageAsset.imageUri asset) = false)
                 /\ (forall t, SourceConfig.imageTag cfg = Some t ->
                               Str.mem ":" t = false))
             /\ (Synth.Token.isUnresolved (DockerImageAsset.imageUri asset) = true ->
                 SourceConfig.imageTag cfg <> None
                 /\ Synth.standsForSelect (SourceConfig.imageTag cfg)
                      (DockerImageAsset.imageUri asset) st2)).
Proof.
  intros newAsset asset scope context st stack H.
  assert (K : forall tag st0 st',
             Synth.extractTag (DockerImageAsset.imageUri asset) st0 = (inr tag, st') ->
             forall st2, Synth.tokens st2 = Synth.tokens st' ->
             (Synth.Token.plain (DockerImageAsset.imageUri asset) = true ->
              (tag = None <-> Str.mem ":" (DockerImageAsset.imageUri asset) = false)
              /\ (forall t, tag = Some t -> Str.mem ":" t = false))
             /\ (Synth.Token.isUnresolved (DockerImageAsset.imageUri asset) = true ->
                 tag <> None
                 /\ Synth.standsForSelect tag (DockerImageAsset.imageUri asset) st2)).
  { intros tag st0 st' E st2 T.
    destruct (SynthFacts.extract_cases _ _ _ _ E) as [Pl Tk]. split.
    - intros P. destruct (Pl P) as [-> _]. split.
      + apply PieceFacts.select_defined.
      + apply PieceFacts.select_colon_free.
    - intros U. destruct (Tk U) as (key & listKey & T1 & T2 & T3). split.
      + rewrite T1. discriminate.
      + exists key, listKey. unfold Synth.standsForSelect. rewrite T. auto. }
  split.
  - destruct (SynthFacts.asset_route newAsset asset scope context st stack H)
      as (tag & st1 & E & W & A & B).
    eexists; eexists; eexists; eexists.
    split; [exact A|]. split; [exact B|].
    cbn [SourceConfig.imageTag]. apply (K tag st st1 E). reflexivity.
  - intros path st1 P.
    destruct (SynthFacts.directory_route newAsset path scope context st stack
                asset st1 H P) as (tag & st2 & E & W & B).
    eexists; eexists. split; [exact B|].
    cbn [SourceConfig.imageTag]. apply (K tag _ st2 E). reflexivity.
Qed.

Lemma imageTag_defined_iff_colon_witness :
  exists cfg st2,
    Synth.Source.bind (Sample.synthPackaging Sample.tokenUri)
      (Synth.Source.directory "docker") Sample.synthScope Sample.context
      Sample.state0 = (inr cfg, st2)
    /\ (Synth.Token.plain (DockerImageAsset.imageUri (Sample.assetAt Sample.tokenUri))
        = true ->
        (SourceConfig.imageTag cfg = None
         <-> Str.mem ":" (DockerImageAsset.imageUri (Sample.assetAt Sample.tokenUri))
             = false)
        /\ (forall t, SourceConfig.imageTag cfg = Some t -> Str.mem ":" t = false))
    /\ (Synth.Token.isUnresolved
          (DockerImageAsset.imageUri (Sample.assetAt Sample.tokenUri)) = true ->
        SourceConfig.imageTag cfg <> None
        /\ Synth.standsForSelect (SourceConfig.imageTag cfg)
             (DockerImageAsset.imageUri (Sample.assetAt Sample.tokenUri)) st2).
Proof.
  apply (proj2 (imageTag_defined_iff_colon
                  (Sample.synthPackaging Sample.tokenUri)
                  (Sample.assetAt Sample.tokenUri)
                  Sample.synthScope Sample.context Sample.state0
                  {| Stack.account := "123456789012"; Stack.region := "us-east-1" |}
                  eq_refl)
           "docker" Sample.state0).
  reflexivity.
Defined.

(** X3. With the scope in a stack, on a plain image URI with at most one
    [':'] the [imageTag] of an Asset source, and of a Directory source whose
    packaging returned, is the part of the URI after its last [':'], and
    undefined when the URI has none. *)
Theorem imageTag_is_afterLast_up_to_one_colon :
  forall newAsset asset scope context st stack,
    Synth.Construct.enclosingStack scope = inr stack ->
    Synth.Token.plain (DockerImageAsset.imageUri asset) = true ->
    Str.count ":" (DockerImageAsset.imageUri asset) <= 1 ->
    (exists src st1 cfg st2,
        Synth.Source.asset asset st = (inr src, st1)
        /\ Synth.Source.bind newAsset src scope context st1 = (inr cfg, st2)
        /\ SourceConfig.imageTag cfg
           = Str.afterLast ":" (DockerImageAsset.imageUri asset))
    /\ (forall path st1,
           newAsset scope "asset" {| DockerImageAsset.directory := path |} st
           = (inr asset, st1) ->
           exists cfg st2,
             Synth.Source.bind newAsset (Synth.Source.directory path)
               scope context st = (inr cfg, st2)
             /\ SourceConfig.imageTag cfg
                = Str.afterLast ":" (DockerImageAsset.imageUri asset)).
Proof.
  intros newAsset asset scope context st stack H P C. split.
  - destruct (SynthFacts.asset_route newAsset asset scope context st stack H)
      as (tag & st1 & E & W & A & B).
    destruct (proj1 (SynthFacts.extract_cases _ _ _ _ E) P) as [-> _].
    eexists; eexists; eexists; eexists.
    split; [exact A|]. split; [exact B|].
    cbn [SourceConfig.imageTag]. apply PieceFacts.select_afterLast; exact C.
  - intros path st1 Q.
    destruct (SynthFacts.directory_route newAsset path scope context st stack
                asset st1 H Q) as (tag & st2 & E & W & B).
    destruct (proj1 (SynthFacts.extract_cases _ _ _ _ E) P) as [-> _].
    eexists; eexists. split; [exact B|].
    cbn [SourceConfig.imageTag]. apply PieceFacts.select_afterLast; exact C.
Qed.

Lemma imageTag_is_afterLast_up_to_one_colon_witness :
  (exists src st1 cfg st2,
      Synth.Source.asset (Sample.assetAt "app:v1") Sample.state0 = (inr src, st1)
      /\ Synth.Source.bind (Sample.synthPackaging "app:v1") src
           Sample.synthScope Sample.context st1 = (inr cfg, st2)
      /\ SourceConfig.imageTag cfg
         = Str.afterLast ":" (DockerImageAsset.imageUri (Sample.assetAt "app:v1")))
  /\ (exists cfg st2,
         Synth.Source.bind (Sample.synthPackaging "app:v1")
           (Synth.Source.directory "docker") Sample.synthScope Sample.context
           Sample.state0 = (inr cfg, st2)
         /\ SourceConfig.imageTag cfg
            = Str.afterLast ":"
                (DockerImageAsset.imageUri (Sample.assetAt "app:v1"))).
Proof.
  destruct (imageTag_is_afterLast_up_to_one_colon
              (Sample.synthPackaging "app:v1") (Sample.assetAt "app:v1")
              Sample.synthScope Sample.context Sample.state0
              {| Stack.account := "123456789012"; Stack.region := "us-east-1" |}
              eq_refl eq_refl) as [A D].
  - simpl; lia.
  - split; [exact A|]. apply (D "docker" Sample.state0). reflexivity.
Defined.

(** ** When binding a source throws *)

(** X5. Binding a source throws in two ways only.  A Directory or an Asset
    source whose scope is in no stack throws the error of [Stack.of], before
    packaging is called and before any grant.  A Directory source in a stack
    throws the error of packaging when packaging throws, again without a
    grant of its own.  A Registry-reference source never throws. *)
Theorem source_bind_throws_only_from_stack_or_packaging :
  (forall newAsset src scope context st e st',
      Synth.Source.bind newAsset src scope context st = (inl e, st') ->
      (Synth.Construct.enclosingStack scope = inl e
       /\ st' = st
       /\ forall repository tag, src <> Source.EcrSource repository tag)
      \/ (exists path stack,
             src = Source.DirectorySource path
             /\ Synth.Construct.enclosingStack scope = inr stack
             /\ newAsset scope "asset" {| DockerImageAsset.directory := path |} st
                = (inl e, st')))
  /\ (forall newAsset src scope context st e,
         Synth.Construct.enclosingStack scope = inl e ->
         (forall repository tag, src <> Source.EcrSource repository tag) ->
         Synth.Source.bind newAsset src scope context st = (inl e, st))
  /\ (forall newAsset path scope context st stack e st',
         Synth.Construct.enclosingStack scope = inr stack ->
         newAsset scope "asset" {| DockerImageAsset.directory := path |} st
         = (inl e, st') ->
         Synth.Source.bind newAsset (Synth.Source.directory path) scope context st
         = (inl e, st'))
  /\ (forall newAsset repository tag scope context st,
         exists cfg st',
           Synth.Source.bind newAsset (Synth.Source.ecr repository tag)
             scope context st = (inr cfg, st')).
Proof.
  split; [|split; [|split]].
  - intros newAsset [path | repository tag | repository tag] scope context st e st'.
    + rewrite SynthFacts.bind_directory.
      destruct (Synth.Construct.enclosingStack scope) as [e0 | stack] eqn:H.
      * intros B; injection B as <- <-. left. repeat split. discriminate.
      * destruct (newAsset scope "asset" _ st) as [[e1 | asset] st1] eqn:P.
        -- intros B; injection B as <- <-. right. exists path, stack. auto.
        -- destruct (SynthFacts.extract_returns (DockerImageAsset.imageUri asset)
                       (Synth.withGrant
                          (Synth.pull (DockerImageAsset.repository asset) context)
                          st1)) as (tag & st2 & E & _).
           rewrite E. discriminate.
    + rewrite SynthFacts.bind_ecr. discriminate.
    + rewrite SynthFacts.bind_asset.
      destruct (Synth.Construct.enclosingStack scope) as [e0 | stack] eqn:H;
        [|discriminate].
      intros B; injection B as <- <-. left. repeat split. discriminate.
  - intros newAsset [path | repository tag | repository tag] scope context st e H N.
    + rewrite SynthFacts.bind_directory, H. reflexivity.
    + exfalso. exact (N repository tag eq_refl).
    + rewrite SynthFacts.bind_asset, H. reflexivity.
  - intros newAsset path scope context st stack e st' H P.
    unfold Synth.Source.directory. rewrite SynthFacts.bind_directory, H, P.
    reflexivity.
  - intros. unfold Synth.Source.ecr. rewrite SynthFacts.bind_ecr.
    eexists; eexists. reflexivity.
Qed.

Lemma source_bind_throws_only_from_stack_or_packaging_witness :
  Synth.Source.bind (Sample.synthPackaging "app:v1")
    (Source.AssetSource Sample.repo (Some "v1"))
    Sample.orphanScope Sample.context Sample.state0
  = (inl (Error "Construct at 'Deployment' should be created in the scope of a Stack, but no Stack found"),
     Sample.state0)
  /\ Synth.Source.bind Sample.synthFailingPackaging
       (Synth.Source.directory "missing")
       Sample.synthScope Sample.context Sample.state0
     = (inl (Error "Cannot find image directory"), Sample.state0).
Proof.
  split.
  - apply (proj1 (proj2 source_bind_throws_only_from_stack_or_packaging)
             (Sample.synthPackaging "app:v1")
             (Source.AssetSource Sample.repo (Some "v1"))
             Sample.orphanScope Sample.context Sample.state0).
    + reflexivity.
    + intros repository tag; discriminate.
  - apply (proj1 (proj2 (proj2 source_bind_throws_only_from_stack_or_packaging))
             Sample.synthFailingPackaging "missing"
             Sample.synthScope Sample.context Sample.state0
             {| Stack.account := "123456789012"; Stack.region := "us-east-1" |});
      reflexivity.
Defined.
